(** * The tap attachment plugin: ADD / DEL / CHECK and the record writer

    Shallow embedding of [plugins/main/tap/tap.go] and [pkg/dan/dan.go].
    The three verbs drive external collaborators (netlink, the IPAM
    delegate, the file system, the CNI result library); those are kept
    behind interfaces here and every call to them is recorded in a trace,
    so that ordering and "never invoked" properties can be stated on the
    trace and the effect on the host on a concrete model of the kernel
    link table. *)

From Stdlib Require Import ZArith Ascii String List.
From stdpp Require Import base tactics option list strings pretty gmap.

Local Open Scope string_scope.
Local Open Scope list_scope.
Local Open Scope Z_scope.

(** ** Strings and formatting *)

(** The double quote character, used by the [%q] verb. *)
Definition dquote : string := String (ascii_of_nat 34) EmptyString.

(** [%q] of a string that needs no escaping. *)
Definition quoted (s : string) : string := dquote +:+ s +:+ dquote.

(** [fmt.Sprintf] restricted to the verbs the plugin uses ([%v], [%+v],
    [%s], [%q]); the operands arrive already rendered as text, one per
    verb, in order.  A verb without operand is left in place. *)
Fixpoint Sprintf (format : string) (args : list string) : string :=
  match format with
  | EmptyString => EmptyString
  | String "%" (String "+" (String "v" rest)) =>
      match args with
      | a :: args' => a +:+ Sprintf rest args'
      | [] => "%+v" +:+ Sprintf rest []
      end
  | String "%" (String "v" rest) =>
      match args with
      | a :: args' => a +:+ Sprintf rest args'
      | [] => "%v" +:+ Sprintf rest []
      end
  | String "%" (String "s" rest) =>
      match args with
      | a :: args' => a +:+ Sprintf rest args'
      | [] => "%s" +:+ Sprintf rest []
      end
  | String "%" (String "q" rest) =>
      match args with
      | a :: args' => quoted a +:+ Sprintf rest args'
      | [] => "%q" +:+ Sprintf rest []
      end
  | String c rest => String c (Sprintf rest args)
  end.

(** ** Errors

    The plugin tells errors apart in three places: the type assertion
    [err.(netlink.LinkNotFoundError)], the comparison with the sentinel
    [ip.ErrLinkNotFound], and the type assertion
    [err.(ns.NSPathNotExistErr)].  Everything else is an opaque error
    carrying its text ([errors.New], [fmt.Errorf]). *)
Inductive error : Type :=
| LinkNotFoundError (msg : string)
| ErrLinkNotFound
| NSPathNotExistErr (msg : string)
| errorString (msg : string).

#[global] Instance error_eq_dec : EqDecision error.
Proof. solve_decision. Defined.

(** [err.Error()] *)
Definition Error (e : error) : string :=
  match e with
  | LinkNotFoundError msg => msg
  | ErrLinkNotFound => "link not found"
  | NSPathNotExistErr msg => msg
  | errorString msg => msg
  end.

Definition errors_New (msg : string) : error := errorString msg.

Definition Errorf (format : string) (args : list string) : error :=
  errorString (Sprintf format args).

Arguments Sprintf : simpl never.
Arguments Errorf : simpl never.

(** ** [net.ParseCIDR]

    Addresses and masks are byte slices, a byte being a [Z] in
    [0, 255]. *)
Definition IP := list Z.
Definition IPMask := list Z.

Record IPNet : Type := mkIPNet { net_IP : IP; net_Mask : IPMask }.

#[global] Instance IPNet_eq_dec : EqDecision IPNet.
Proof. solve_decision. Defined.

Definition IPv4len : nat := 4.
Definition IPv6len : nat := 16.

Definition v4InV6Prefix : list Z := [0; 0; 0; 0; 0; 0; 0; 0; 0; 0; 255; 255].

Definition is_digit (c : ascii) : bool :=
  ((48 <=? nat_of_ascii c) && (nat_of_ascii c <=? 57))%nat.

Definition digit_val (c : ascii) : Z := Z.of_nat (nat_of_ascii c) - 48.

Definition big : Z := 16777215.

(** [dtoi]: decimal to integer; returns the number, the count of
    characters consumed and a success flag. *)
Fixpoint dtoi_loop (s : string) (n : Z) (i : nat) : Z * nat * bool :=
  match s with
  | String c rest =>
      if is_digit c then
        let n' := n * 10 + digit_val c in
        if big <=? n' then (big, i, false) else dtoi_loop rest n' (S i)
      else
        match i with O => (0, O, false) | _ => (n, i, true) end
  | EmptyString =>
      match i with O => (0, O, false) | _ => (n, i, true) end
  end.

Definition dtoi (s : string) : Z * nat * bool := dtoi_loop s 0 O.

(** Index of the first occurrence of a byte, as [bytealg.IndexByteString]. *)
Fixpoint IndexByteString (s : string) (c : ascii) : option nat :=
  match s with
  | EmptyString => None
  | String d rest =>
      if Ascii.eqb d c then Some O else S <$> IndexByteString rest c
  end.

Definition take_str (n : nat) (s : string) : string := substring 0 n s.
Definition drop_str (n : nat) (s : string) : string :=
  substring n (String.length s - n) s.

(** [parseIPv4Fields] of [net/netip]: four decimal octets separated by
    dots, no empty octet, no leading zero, no octet above 255.  The loop
    state is the value and digit count of the current octet and the
    octets completed so far; [prev_dot] tells that the previous character
    was a dot (or that the scan is at the start). *)
Fixpoint parseIPv4Fields (s : string) (val : Z) (digLen : nat)
    (fields : list Z) (prev_dot : bool) : option (list Z) :=
  match s with
  | EmptyString =>
      if (List.length fields <? 3)%nat then None else Some (fields ++ [val])
  | String c rest =>
      if is_digit c then
        if (Nat.eqb digLen 1 && (val =? 0))%bool then None
        else
          let val' := val * 10 + digit_val c in
          if 255 <? val' then None
          else parseIPv4Fields rest val' (S digLen) fields false
      else if Ascii.eqb c "." then
        if prev_dot then None
        else match rest with
             | EmptyString => None
             | _ =>
                 if Nat.eqb (List.length fields) 3 then None
                 else parseIPv4Fields rest 0 O (fields ++ [val]) true
             end
      else None
  end.

Definition parseIPv4 (s : string) : option (list Z) :=
  parseIPv4Fields s 0 O [] true.

Inductive addr_syntax := SynV4 | SynV6 | SynBad.

(** The dispatch of [netip.ParseAddr] on the first of ['.'], [':'], ['%']. *)
Fixpoint addr_syntax_of (s : string) : addr_syntax :=
  match s with
  | EmptyString => SynBad
  | String c rest =>
      if Ascii.eqb c "." then SynV4
      else if Ascii.eqb c ":" then SynV6
      else if Ascii.eqb c "%" then SynBad
      else addr_syntax_of rest
  end.

(** [CIDRMask ones bits] *)
Fixpoint CIDRMask_loop (l : nat) (n : Z) : IPMask :=
  match l with
  | O => []
  | S l' =>
      if 8 <=? n then 255 :: CIDRMask_loop l' (n - 8)
      else Z.land (Z.lnot (Z.shiftr 255 n)) 255 :: CIDRMask_loop l' 0
  end.

Definition CIDRMask (ones : Z) (bits : nat) : IPMask :=
  CIDRMask_loop (bits / 8)%nat ones.

Definition allFF (b : list Z) : bool := forallb (Z.eqb 255) b.

Definition bytes_eqb (a b : list Z) : bool := bool_decide (a = b).

(** [IP.Mask]; [None] is the nil slice returned on a length mismatch. *)
Definition IP_Mask (ip : IP) (mask : IPMask) : option IP :=
  let mask1 :=
    if (Nat.eqb (List.length mask) IPv6len && Nat.eqb (List.length ip) IPv4len
        && allFF (take 12 mask))%bool
    then drop 12 mask else mask in
  let ip1 :=
    if (Nat.eqb (List.length mask1) IPv4len && Nat.eqb (List.length ip) IPv6len
        && bytes_eqb (take 12 ip) v4InV6Prefix)%bool
    then drop 12 ip else ip in
  if Nat.eqb (List.length ip1) (List.length mask1)
  then Some (zip_with Z.land ip1 mask1)
  else None.

(** [net.ParseCIDR].  The IPv6 text parser of [net/netip] is not part of
    the plugin; it is the parameter [parseIPv6], which yields the sixteen
    bytes of a zone-free address.  The result is the address in its
    sixteen-byte form and the network: the address masked by the prefix
    length, with the mask. *)
Definition ParseCIDR (parseIPv6 : string -> option (list Z)) (s : string)
    : option (IP * IPNet) :=
  match IndexByteString s "/" with
  | None => None
  | Some i =>
      let addr := take_str i s in
      let mask := drop_str (S i) s in
      let parsed :=
        match addr_syntax_of addr with
        | SynV4 => (fun b => (v4InV6Prefix ++ b, 32%nat)) <$> parseIPv4 addr
        | SynV6 => (fun b => (b, 128%nat)) <$> parseIPv6 addr
        | SynBad => None
        end in
      match parsed with
      | None => None
      | Some (addr16, bitLen) =>
          let '(n, j, ok) := dtoi mask in
          if (negb ok || negb (Nat.eqb j (String.length mask))
              || (n <? 0) || (Z.of_nat bitLen <? n))%bool
          then None
          else
            let m := CIDRMask n bitLen in
            match IP_Mask addr16 m with
            | Some masked => Some (addr16, mkIPNet masked m)
            | None => Some (addr16, mkIPNet [] m)
            end
      end
  end.

(** ** [filepath.Dir] *)

(** Split a path at every separator. *)
Fixpoint split_slash (s : string) (cur : string) : list string :=
  match s with
  | EmptyString => [cur]
  | String c rest =>
      if Ascii.eqb c "/" then cur :: split_slash rest EmptyString
      else split_slash rest (cur +:+ String c EmptyString)
  end.

(** The element stack of [filepath.Clean]: empty and [.] elements are
    dropped, [..] removes the element before it, except that it is
    dropped at the root and kept at the start of a relative path. *)
Fixpoint clean_elems (rooted : bool) (elems : list string) (stack : list string)
    : list string :=
  match elems with
  | [] => rev stack
  | e :: rest =>
      if String.eqb e EmptyString || String.eqb e "." then
        clean_elems rooted rest stack
      else if String.eqb e ".." then
        match stack with
        | top :: stack' =>
            if String.eqb top ".." then clean_elems rooted rest (e :: stack)
            else clean_elems rooted rest stack'
        | [] =>
            if rooted then clean_elems rooted rest []
            else clean_elems rooted rest [e]
        end
      else clean_elems rooted rest (e :: stack)
  end.

Fixpoint join_slash (elems : list string) : string :=
  match elems with
  | [] => EmptyString
  | [e] => e
  | e :: rest => e +:+ "/" +:+ join_slash rest
  end.

Definition is_rooted (path : string) : bool :=
  match path with String "/" _ => true | _ => false end.

Definition filepath_Clean (path : string) : string :=
  let rooted := is_rooted path in
  let body := join_slash (clean_elems rooted (split_slash path EmptyString) []) in
  let out := if rooted then "/" +:+ body else body in
  if String.eqb out EmptyString then "." else out.

(** Index just past the last separator. *)
Fixpoint last_slash (s : string) (i : nat) (found : nat) : nat :=
  match s with
  | EmptyString => found
  | String c rest =>
      if Ascii.eqb c "/" then last_slash rest (S i) (S i)
      else last_slash rest (S i) found
  end.

Definition filepath_Dir (path : string) : string :=
  filepath_Clean (take_str (last_slash path O O) path).


(** ** Data model *)

(** [octal [7;5;5]] is the Go literal [0755]. *)
Definition octal (digits : list Z) : Z :=
  fold_left (fun acc d => acc * 8 + d) digits 0.

Definition hex_digit (n : Z) : string :=
  match n with
  | 0 => "0" | 1 => "1" | 2 => "2" | 3 => "3" | 4 => "4" | 5 => "5"
  | 6 => "6" | 7 => "7" | 8 => "8" | 9 => "9" | 10 => "a" | 11 => "b"
  | 12 => "c" | 13 => "d" | 14 => "e" | _ => "f"
  end.

Definition hex_byte (b : Z) : string :=
  hex_digit (Z.shiftr b 4) +:+ hex_digit (Z.land b 15).

(** [net.HardwareAddr.String]: colon-separated hexadecimal bytes. *)
Fixpoint HardwareAddr_String (a : list Z) : string :=
  match a with
  | [] => EmptyString
  | [b] => hex_byte b
  | b :: rest => hex_byte b +:+ ":" +:+ HardwareAddr_String rest
  end.

Inductive TuntapMode : Type := TUNTAP_MODE_TUN | TUNTAP_MODE_TAP.

(** [netlink.LinkAttrs], the attributes the plugin sets or reads. The
    master is kept by name. *)
Record LinkAttrs : Type := mkLinkAttrs {
  la_Name : string;
  la_HardwareAddr : list Z;
  la_Master : option string;
  la_Up : bool;
}.

(** [netlink.Link]: the link types the plugin builds ([Bridge], [Tuntap])
    and any other device found on the host. *)
Inductive Link : Type :=
| Bridge (attrs : LinkAttrs)
| Tuntap (attrs : LinkAttrs) (mode : TuntapMode)
| Device (attrs : LinkAttrs).

Definition Attrs (l : Link) : LinkAttrs :=
  match l with
  | Bridge a => a
  | Tuntap a _ => a
  | Device a => a
  end.

(** A [LinkAttrs] literal that sets only [Name]. *)
Definition attrs_named (name : string) : LinkAttrs :=
  mkLinkAttrs name [] None false.

(** [netlink.Addr] *)
Record Addr : Type := mkAddr { addr_IPNet : IPNet; addr_Label : string }.

(** [types.IPAM] and [types.NetConf] with the fields of the plugin's
    [NetConf] that embeds it. *)
Record IPAM : Type := mkIPAM { ipam_Type : string }.

Record NetConf : Type := mkNetConf {
  nc_CNIVersion : string;
  nc_Name : string;
  nc_Type : string;
  nc_IPAM : IPAM;
  nc_Bridge : string;
  nc_BridgeIP : string;
}.

(** [skel.CmdArgs] *)
Record CmdArgs : Type := mkCmdArgs {
  ContainerID : string;
  Netns : string;
  IfName : string;
  Args : string;
  Path : string;
  StdinData : string;
}.

(** [current.Interface], [current.IPConfig], [types.Route], [types.DNS]. *)
Record Interface : Type := mkInterface {
  if_Name : string;
  if_Mac : string;
  if_Sandbox : string;
}.

Record IPConfig : Type := mkIPConfig {
  ipc_Interface : option Z;
  ipc_Address : IPNet;
  ipc_Gateway : IP;
}.

Record Route : Type := mkRoute { rt_Dst : IPNet; rt_GW : IP }.

Record DNS : Type := mkDNS {
  dns_Nameservers : list string;
  dns_Domain : string;
  dns_Search : list string;
  dns_Options : list string;
}.

(** [current.Result].  The three slices hold pointers, [None] being a
    nil element; [res_Annotations = None] is the nil map. *)
Record Result : Type := mkResult {
  res_CNIVersion : string;
  res_Interfaces : list (option Interface);
  res_IPs : list (option IPConfig);
  res_Routes : list (option Route);
  res_DNS : DNS;
  res_Annotations : option (gmap string string);
}.

Definition empty_DNS : DNS := mkDNS [] EmptyString [] [].

(** [&current.Result{}] *)
Definition empty_Result : Result :=
  mkResult EmptyString [] [] [] empty_DNS None.

(** A [types.Result] as handed back by the delegate: a result document
    of some version of the protocol. *)
Record TypesResult : Type := mkTypesResult {
  tr_Version : string;
  tr_Result : Result;
}.

Inductive DirectAttachableNetworkType : Type :=
| DirectAttachableNetworkTypeTap
| DirectAttachableNetworkTypePassthrough
| DirectAttachableNetworkTypeDPDK.

(** The string constant behind each network type. *)
Definition networkType_string (t : DirectAttachableNetworkType) : string :=
  match t with
  | DirectAttachableNetworkTypeTap => "tap"
  | DirectAttachableNetworkTypePassthrough => "passthrough"
  | DirectAttachableNetworkTypeDPDK => "dpdk"
  end.

Record DirectAttachableNetwork : Type := mkDAN {
  NetworkType : DirectAttachableNetworkType;
  DeviceName : string;
  ContainerInterfaceName : string;
  DPDKSocketPath : string;
  HWAddr : string;
  KernelPath : string;
  PCIAddr : string;
  Interfaces : list (option Interface);
  IPs : list (option IPConfig);
  Routes : list (option Route);
  DNS_ : DNS;
  Annotations : option (gmap string string);
}.

#[global] Instance TuntapMode_eq_dec : EqDecision TuntapMode.
Proof. solve_decision. Defined.
#[global] Instance LinkAttrs_eq_dec : EqDecision LinkAttrs.
Proof. solve_decision. Defined.
#[global] Instance Link_eq_dec : EqDecision Link.
Proof. solve_decision. Defined.
#[global] Instance Addr_eq_dec : EqDecision Addr.
Proof. solve_decision. Defined.
#[global] Instance Interface_eq_dec : EqDecision Interface.
Proof. solve_decision. Defined.
#[global] Instance IPConfig_eq_dec : EqDecision IPConfig.
Proof. solve_decision. Defined.
#[global] Instance Route_eq_dec : EqDecision Route.
Proof. solve_decision. Defined.
#[global] Instance DNS_eq_dec : EqDecision DNS.
Proof. solve_decision. Defined.
#[global] Instance Result_eq_dec : EqDecision Result.
Proof. solve_decision. Defined.

(** ** Calls to the collaborators, and the trace *)

Inductive call : Type :=
| CLinkByName (name : string)
| CLinkAdd (l : Link)
| CAddrAdd (l : Link) (addr : Addr)
| CLinkSetMaster (l master : Link)
| CLinkSetUp (l : Link)
| CDelLinkByName (name : string)
| CExecAdd (plugin netconf : string)
| CExecDel (plugin netconf : string)
| CPrintResult (r : Result) (version : string)
| CMkdirAll (path : string) (perm : Z)
| CWriteFile (name data : string) (perm : Z).

#[global] Instance call_eq_dec : EqDecision call.
Proof. solve_decision. Defined.

(** One entry of the trace: the call and the error it returned
    ([None] is Go's nil error). *)
Record event : Type := Ev { ev_call : call; ev_err : option error }.

#[global] Instance event_eq_dec : EqDecision event.
Proof. solve_decision. Defined.

(** How a Go function leaves: by [return], or by a run-time panic. *)
Inductive exit : Type :=
| Returned (e : option error)
| Panicked (msg : string).

#[global] Instance exit_eq_dec : EqDecision exit.
Proof. solve_decision. Defined.

(** ** The collaborators

    The stateful collaborators act on a host state [W]: netlink and
    [ip.DelLinkByName] (the Link Provider), [ipam.ExecAdd] and
    [ipam.ExecDel] (the Address Allocator), [os.MkdirAll],
    [os.WriteFile] and [os.OpenFile] (the file system), and
    [types.PrintResult] (the result document on standard output). *)
Class Provider (W : Type) : Type := {
  netlink_LinkByName : string -> W -> (Link + error) * W;
  netlink_LinkAdd : Link -> W -> option error * W;
  netlink_AddrAdd : Link -> Addr -> W -> option error * W;
  netlink_LinkSetMaster : Link -> Link -> W -> option error * W;
  netlink_LinkSetUp : Link -> W -> option error * W;
  ip_DelLinkByName : string -> W -> option error * W;
  ipam_ExecAdd : string -> string -> W -> (TypesResult + error) * W;
  ipam_ExecDel : string -> string -> W -> option error * W;
  types_PrintResult : Result -> string -> W -> option error * W;
  os_MkdirAll : string -> Z -> W -> option error * W;
  os_WriteFile : string -> string -> Z -> W -> option error * W;
  os_OpenFile_append : string -> Z -> W -> option error * W;
}.

(** The pure library functions: the JSON codec at the two types the
    plugin uses it at, the result conversion of the CNI library (a Go
    pair: the pointer, nil as [None], and the error), and the IPv6 text
    parser behind [net.ParseCIDR]. *)
Class Lib : Type := {
  json_Unmarshal : string -> NetConf + error;
  json_MarshalIndent : DirectAttachableNetwork -> string -> string -> string;
  NewResultFromResult : TypesResult -> option Result * option error;
  netip_parseIPv6 : string -> option (list Z);
}.

Arguments netlink_LinkByName : simpl never.
Arguments netlink_LinkAdd : simpl never.
Arguments netlink_AddrAdd : simpl never.
Arguments netlink_LinkSetMaster : simpl never.
Arguments netlink_LinkSetUp : simpl never.
Arguments ip_DelLinkByName : simpl never.
Arguments ipam_ExecAdd : simpl never.
Arguments ipam_ExecDel : simpl never.
Arguments types_PrintResult : simpl never.
Arguments os_MkdirAll : simpl never.
Arguments os_WriteFile : simpl never.
Arguments os_OpenFile_append : simpl never.
Arguments json_Unmarshal : simpl never.
Arguments json_MarshalIndent : simpl never.
Arguments NewResultFromResult : simpl never.
Arguments netip_parseIPv6 : simpl never.

(** ** Text of the operands of [%v] and [%+v]

    Structured operands are rendered by the fields named here; the text
    only reaches error messages and the diagnostic log. *)
Fixpoint dotted (b : list Z) : string :=
  match b with
  | [] => EmptyString
  | [x] => pretty x
  | x :: rest => pretty x +:+ "." +:+ dotted rest
  end.

Definition byte_ones (b : Z) : Z :=
  fold_left (fun acc i => if Z.testbit b i then acc + 1 else acc)
            [0; 1; 2; 3; 4; 5; 6; 7] 0.

Definition mask_ones (m : IPMask) : Z :=
  fold_left (fun acc b => acc + byte_ones b) m 0.

Definition show_IPNet (n : IPNet) : string :=
  dotted (net_IP n) +:+ "/" +:+ pretty (mask_ones (net_Mask n)).

Definition show_Link (l : Link) : string := la_Name (Attrs l).
Definition show_NetConf (c : NetConf) : string :=
  nc_Name c +:+ " " +:+ nc_Bridge c +:+ " " +:+ nc_BridgeIP c.
Definition show_CmdArgs (a : CmdArgs) : string :=
  ContainerID a +:+ " " +:+ Netns a +:+ " " +:+ IfName a.
Definition show_Result (r : Result) : string := res_CNIVersion r.

(** ** The host-side state threaded through a verb *)

Record Env (W : Type) : Type := mkEnv {
  world : W;
  trace : list event;
  diag : list string;
}.
Arguments mkEnv {W} _ _ _.
Arguments world {W} _.
Arguments trace {W} _.
Arguments diag {W} _.

Definition init_env {W : Type} (w : W) : Env W := mkEnv w [] [].

Definition IO (W A : Type) : Type := Env W -> A * Env W.

Definition io_ret {W A : Type} (a : A) : IO W A := fun env => (a, env).

Definition io_bind {W A B : Type} (m : IO W A) (k : A -> IO W B) : IO W B :=
  fun env => let '(a, env') := m env in k a env'.

Notation "x <- m ;; k" := (io_bind m (fun x => k))
  (at level 100, m at next level, right associativity).
Notation "m ;;; k" := (io_bind m (fun _ => k))
  (at level 100, right associativity).

Definition err_of_sum {A : Type} (r : A + error) : option error :=
  match r with inl _ => None | inr e => Some e end.

(** Perform one call on the host and append it, with the error it
    returned, to the trace. *)
Definition traced {W A : Type} (c : call) (errof : A -> option error)
    (op : W -> A * W) : IO W A :=
  fun env =>
    let '(a, w') := op (world env) in
    (a, mkEnv w' (trace env ++ [Ev c (errof a)]) (diag env)).

(** The variables of [cmdAdd] that its deferred closures capture by
    reference: [err] and [result] (a pointer, nil as [None]). *)
Record frame : Type := mkFrame {
  v_err : option error;
  v_result : option Result;
}.

(** A deferred call: it may assign the captured variables, and it may
    panic. *)
Definition deferred (W : Type) : Type := frame -> IO W (frame + string).

(** Leaving a function: the deferred calls run last registered first,
    each on the variables as they are by then; a panic in one of them
    does not stop the remaining ones, and the function then leaves by
    that panic. *)
Fixpoint leave {W : Type} (stack : list (deferred W)) (f : frame) (x : exit)
    : IO W exit :=
  match stack with
  | [] => io_ret x
  | d :: rest =>
      r <- d f ;;
      match r with
      | inl f' => leave rest f' x
      | inr msg => leave rest f (Panicked msg)
      end
  end.

Definition hostTapName : string := "tap0".

Definition nil_deref : string :=
  "runtime error: invalid memory address or nil pointer dereference".

Section Plugin.
Context {W : Type} {P : Provider W} {L : Lib}.

Definition LinkByName (name : string) : IO W (Link + error) :=
  traced (CLinkByName name) err_of_sum (netlink_LinkByName name).
Definition LinkAdd (l : Link) : IO W (option error) :=
  traced (CLinkAdd l) id (netlink_LinkAdd l).
Definition AddrAdd (l : Link) (a : Addr) : IO W (option error) :=
  traced (CAddrAdd l a) id (netlink_AddrAdd l a).
Definition LinkSetMaster (l master : Link) : IO W (option error) :=
  traced (CLinkSetMaster l master) id (netlink_LinkSetMaster l master).
Definition LinkSetUp (l : Link) : IO W (option error) :=
  traced (CLinkSetUp l) id (netlink_LinkSetUp l).
Definition DelLinkByName (name : string) : IO W (option error) :=
  traced (CDelLinkByName name) id (ip_DelLinkByName name).
Definition ExecAdd (plugin netconf : string) : IO W (TypesResult + error) :=
  traced (CExecAdd plugin netconf) err_of_sum (ipam_ExecAdd plugin netconf).
Definition ExecDel (plugin netconf : string) : IO W (option error) :=
  traced (CExecDel plugin netconf) id (ipam_ExecDel plugin netconf).
Definition PrintResult (r : Result) (version : string) : IO W (option error) :=
  traced (CPrintResult r version) id (types_PrintResult r version).
Definition MkdirAll (path : string) (perm : Z) : IO W (option error) :=
  traced (CMkdirAll path perm) id (os_MkdirAll path perm).
Definition WriteFile (name data : string) (perm : Z) : IO W (option error) :=
  traced (CWriteFile name data perm) id (os_WriteFile name data perm).

(** *** pkg/dan *)

(** [FromResult]: reads the fields of [r]; on a nil [r] that is a nil
    pointer dereference. *)
Definition FromResult (networkType : DirectAttachableNetworkType)
    (device containerInfName : string) (r : option Result)
    : DirectAttachableNetwork + string :=
  match r with
  | None => inr nil_deref
  | Some r =>
      inl {| NetworkType := networkType;
             DeviceName := device;
             ContainerInterfaceName := containerInfName;
             DPDKSocketPath := EmptyString;
             HWAddr := EmptyString;
             KernelPath := EmptyString;
             PCIAddr := EmptyString;
             Interfaces := res_Interfaces r;
             IPs := res_IPs r;
             Routes := res_Routes r;
             DNS_ := res_DNS r;
             Annotations := res_Annotations r |}
  end.

(** [Log]: append one line to [/tmp/cni.log]; when the file cannot be
    opened the line is dropped. *)
Definition Log (format : string) (args : list string) : IO W unit :=
  fun env =>
    let '(e, w') := os_OpenFile_append "/tmp/cni.log" (octal [6; 0; 0]) (world env) in
    match e with
    | Some _ => (tt, mkEnv w' (trace env) (diag env))
    | None =>
        (tt, mkEnv w' (trace env)
                   (diag env ++ [Sprintf (format +:+ String (ascii_of_nat 10) EmptyString) args]))
    end.

Definition Save (dan : DirectAttachableNetwork) (metaFile : string)
    : IO W (option error) :=
  let body := json_MarshalIndent dan EmptyString " " in
  let path := filepath_Dir metaFile in
  e <- MkdirAll path (octal [7; 5; 5]) ;;
  match e with
  | Some err => io_ret (Some err)
  | None => WriteFile metaFile body (octal [6; 4; 4])
  end.

(** *** plugins/main/tap *)

Definition parseNetConf (bytes : string) : NetConf + error :=
  match json_Unmarshal bytes with
  | inr err => inr (Errorf "failed to parse network config: %v" [Error err])
  | inl conf => inl conf
  end.

(** The first half of [createTapInterface]: look the bridge up and
    create it, with its address, when the lookup says it is not
    there. *)
Definition ensureBridge (conf : NetConf) : IO W (Link + error) :=
  r <- LinkByName (nc_Bridge conf) ;;
  match r with
  | inl br => io_ret (inl br)
  | inr (LinkNotFoundError msg) =>
      let br := Bridge (attrs_named (nc_Bridge conf)) in
      e <- LinkAdd br ;;
      match e with
      | Some err =>
          io_ret (inr (Errorf "failed to create bridge link: %v" [Error err]))
      | None =>
          match ParseCIDR netip_parseIPv6 (nc_BridgeIP conf) with
          | None =>
              io_ret (inr (Errorf "failed to parse bridge IP(%+v): %v"
                             [nc_BridgeIP conf;
                              "invalid CIDR address: " +:+ nc_BridgeIP conf]))
          | Some (_, ipv4Net) =>
              let addr := mkAddr ipv4Net EmptyString in
              e <- AddrAdd br addr ;;
              match e with
              | Some err =>
                  io_ret (inr (Errorf "failed to add IP addr %v to %q: %v"
                                 [show_IPNet ipv4Net; nc_Bridge conf; Error err]))
              | None => io_ret (inl br)
              end
          end
      end
  | inr err =>
      io_ret (inr (Errorf "failed to fetch master bridge device %q: %v"
                     [nc_Bridge conf; Error err]))
  end.

Definition createTapInterface (conf : NetConf) (ifName : string)
    : IO W (Interface + error) :=
  let tapInterface := mkInterface EmptyString EmptyString EmptyString in
  b <- ensureBridge conf ;;
  match b with
  | inr err => io_ret (inr err)
  | inl br =>
      let tap := Tuntap (attrs_named ifName) TUNTAP_MODE_TAP in
      e <- LinkAdd tap ;;
      match e with
      | Some err =>
          io_ret (inr (Errorf "failed to create tap link: %v" [Error err]))
      | None =>
          let tapInterface :=
            mkInterface ifName (if_Mac tapInterface) (if_Sandbox tapInterface) in
          e <- LinkSetMaster tap br ;;
          match e with
          | Some err =>
              io_ret (inr (Errorf "failed to link tap device %q to master %+v: %v"
                             [ifName; show_Link br; Error err]))
          | None =>
              g <- LinkByName ifName ;;
              match g with
              | inr err =>
                  io_ret (inr (Errorf "failed to fetch tap device %q: %v"
                                 [ifName; Error err]))
              | inl tapGot =>
                  Log "tapGot %+v" [show_Link tapGot] ;;;
                  let tapInterface :=
                    mkInterface (if_Name tapInterface)
                                (HardwareAddr_String (la_HardwareAddr (Attrs tapGot)))
                                (if_Sandbox tapInterface) in
                  e <- LinkSetUp tapGot ;;
                  match e with
                  | Some err =>
                      io_ret (inr (Errorf "failed to set %+v up: %v"
                                     [show_Link tapGot; Error err]))
                  | None => io_ret (inl tapInterface)
                  end
              end
          end
      end
  end.

(** The three deferred closures of [cmdAdd], and the deferred [Log]
    of both verbs. *)
Definition deferred_Log (format : string) : deferred W :=
  fun f => Log format [] ;;; io_ret (inl f).

(** [meta := dan.FromResult(...); _ = meta.Save(metaFile)] *)
Definition deferred_Save (args : CmdArgs) (metaFile : string) : deferred W :=
  fun f =>
    match FromResult DirectAttachableNetworkTypeTap hostTapName (IfName args)
                     (v_result f) with
    | inr msg => io_ret (inr msg)
    | inl meta => Save meta metaFile ;;; io_ret (inl f)
    end.

(** [if err != nil { err = ip.DelLinkByName(hostTapName) }] *)
Definition deferred_DelLink : deferred W :=
  fun f =>
    match v_err f with
    | Some _ =>
        e <- DelLinkByName hostTapName ;;
        io_ret (inl (mkFrame e (v_result f)))
    | None => io_ret (inl f)
    end.

(** [if err != nil { ipam.ExecDel(conf.IPAM.Type, args.StdinData) }] *)
Definition deferred_ExecDel (conf : NetConf) (args : CmdArgs) : deferred W :=
  fun f =>
    match v_err f with
    | Some _ =>
        ExecDel (ipam_Type (nc_IPAM conf)) (StdinData args) ;;; io_ret (inl f)
    | None => io_ret (inl f)
    end.

(** The loop [for _, ipc := range result.IPs { ipc.Interface =
    current.Int(0) }].  The elements are pointers and the loop writes
    through each in turn: a nil element stops it with a panic, the
    elements before it already rebound.  The value is the slice as the
    loop leaves it, and whether the loop ran to its end. *)
Fixpoint rebind_IPs (ips : list (option IPConfig)) : list (option IPConfig) * bool :=
  match ips with
  | [] => ([], true)
  | None :: rest => (None :: rest, false)
  | Some ipc :: rest =>
      let '(rest', completed) := rebind_IPs rest in
      (Some (mkIPConfig (Some 0) (ipc_Address ipc) (ipc_Gateway ipc)) :: rest',
       completed)
  end.

Definition banner_Add : string := ">>>>>>>>   cmdAdd   >>>>>>>>>>>>".
Definition banner_Del : string := ">>>>>>>>   cmdDel   >>>>>>>>>>>>".

(** [cmdAdd].  [stack] is the stack of deferred calls, pushed by each
    [defer] statement; every [return] leaves through it with the
    values [err] and [result] have at that point.  The result of the
    function is unnamed, so the value of a [return] is fixed before the
    deferred calls run and what they assign to [err] does not change
    it. *)
Definition cmdAdd (args : CmdArgs) : IO W exit :=
  Log banner_Add [] ;;;
  let stack := [deferred_Log banner_Add] in
  Log "args %+v" [show_CmdArgs args] ;;;
  match parseNetConf (StdinData args) with
  | inr err => leave stack (mkFrame (Some err) None) (Returned (Some err))
  | inl conf =>
      Log "conf %+v" [show_NetConf conf] ;;;
      if String.eqb (ipam_Type (nc_IPAM conf)) EmptyString then
        leave stack (mkFrame None None)
              (Returned (Some (errors_New "tap interface requires an IPAM configuration")))
      else
        t <- createTapInterface conf hostTapName ;;
        match t with
        | inr err => leave stack (mkFrame (Some err) None) (Returned (Some err))
        | inl tapInterface =>
            let result := Some empty_Result in
            let metaFile := Sprintf "/tmp/dans/tap/%s.json" [hostTapName] in
            let stack := deferred_Save args metaFile :: stack in
            let stack := deferred_DelLink :: stack in
            r <- ExecAdd (ipam_Type (nc_IPAM conf)) (StdinData args) ;;
            match r with
            | inr err => leave stack (mkFrame (Some err) result) (Returned (Some err))
            | inl r =>
                let stack := deferred_ExecDel conf args :: stack in
                let '(result, err) := NewResultFromResult r in
                match err with
                | Some e => leave stack (mkFrame err result) (Returned (Some e))
                | None =>
                    match result with
                    | None => leave stack (mkFrame err result) (Panicked nil_deref)
                    | Some res =>
                        if Nat.eqb (List.length (res_IPs res)) 0 then
                          leave stack (mkFrame err result)
                                (Returned (Some (errors_New "IPAM plugin returned missing IP config")))
                        else
                          let '(ips, completed) := rebind_IPs (res_IPs res) in
                          let res := mkResult (res_CNIVersion res) (res_Interfaces res)
                                              ips (res_Routes res)
                                              (res_DNS res) (res_Annotations res) in
                          if negb completed then
                            leave stack (mkFrame err (Some res)) (Panicked nil_deref)
                          else
                          let res := mkResult (res_CNIVersion res) [Some tapInterface]
                                              (res_IPs res) (res_Routes res)
                                              (res_DNS res) (res_Annotations res) in
                          Log "result %+v" [show_Result res] ;;;
                          let annotations :=
                            match res_Annotations res with
                            | None => ∅
                            | Some m => m
                            end in
                          let res := mkResult (res_CNIVersion res) (res_Interfaces res)
                                              (res_IPs res) (res_Routes res) (res_DNS res)
                                              (Some (<["metafile" := metaFile]> annotations)) in
                          e <- PrintResult res (nc_CNIVersion conf) ;;
                          leave stack (mkFrame err (Some res)) (Returned e)
                    end
                end
            end
        end
  end.

Definition cmdDel (args : CmdArgs) : IO W exit :=
  Log banner_Del [] ;;;
  let stack := [deferred_Log banner_Del] in
  match parseNetConf (StdinData args) with
  | inr err => leave stack (mkFrame (Some err) None) (Returned (Some err))
  | inl conf =>
      Log " cmdDel conf %+v" [show_NetConf conf] ;;;
      e <- ExecDel (ipam_Type (nc_IPAM conf)) (StdinData args) ;;
      match e with
      | Some err =>
          Log " cmdDel ipam.ExecDel error %+v" [Error err] ;;;
          leave stack (mkFrame e None) (Returned (Some err))
      | None =>
          e <- DelLinkByName "tap0" ;;
          match e with
          | Some ErrLinkNotFound =>
              Log " cmdDel ip.DelLinkByName not found %+v" [Error ErrLinkNotFound] ;;;
              leave stack (mkFrame e None) (Returned None)
          | _ =>
              Log " cmdDel tap0 deleted %+v"
                  [match e with Some err => Error err | None => "<nil>" end] ;;;
              match e with
              | Some (NSPathNotExistErr msg) =>
                  leave stack (mkFrame e None) (Returned None)
              | Some err => leave stack (mkFrame e None) (Returned (Some err))
              | None => leave stack (mkFrame e None) (Returned None)
              end
          end
      end
  end.

Definition cmdCheck (args : CmdArgs) : IO W exit :=
  match parseNetConf (StdinData args) with
  | inr err => io_ret (Returned (Some err))
  | inl conf =>
      Log "cmdCheck conf %+v" [show_NetConf conf] ;;;
      io_ret (Returned None)
  end.
End Plugin.

(** ** A host: kernel link table, delegate, file system

    The collaborators are not part of the plugin.  [Host] is a reference
    implementation of [Provider] on which the effect of the verbs on the
    host can be observed; any call can be made to fail by the host's
    [faults] schedule, indexed by the number of calls made so far. *)

Inductive fault : Type :=
| KernelRejects (msg : string)
| NamespaceGone.

Definition fault_error (f : fault) : error :=
  match f with
  | KernelRejects msg => errorString msg
  | NamespaceGone => NSPathNotExistErr "failed to Statfs: no such file or directory"
  end.

(** A network device in the kernel's table; the table is keyed by the
    device name. *)
Inductive LinkKind : Type :=
| KBridge
| KTuntap (mode : TuntapMode)
| KDevice.

Record Netdev : Type := mkNetdev {
  nd_kind : LinkKind;
  nd_HardwareAddr : list Z;
  nd_Master : option string;
  nd_Up : bool;
}.

Definition kind_of (l : Link) : LinkKind :=
  match l with
  | Bridge _ => KBridge
  | Tuntap _ m => KTuntap m
  | Device _ => KDevice
  end.

(** The [netlink.Link] a lookup by [name] hands out for a device. *)
Definition link_of (name : string) (d : Netdev) : Link :=
  let a := mkLinkAttrs name (nd_HardwareAddr d) (nd_Master d) (nd_Up d) in
  match nd_kind d with
  | KBridge => Bridge a
  | KTuntap m => Tuntap a m
  | KDevice => Device a
  end.

Record Host : Type := mkHost {
  links : gmap string Netdev;
  addrs : gmap string (list Addr);
  leases : list (string * string);
  dirs : gmap string Z;
  files : gmap string (string * Z);
  stdout : list (Result * string);
  clock : nat;
  faults : nat -> option fault;
  ipam_reply : TypesResult;
  fresh_hwaddr : list Z;
  log_writable : bool;
}.

Definition with_links (h : Host) (l : gmap string Netdev) : Host :=
  mkHost l (addrs h) (leases h) (dirs h) (files h) (stdout h) (clock h)
         (faults h) (ipam_reply h) (fresh_hwaddr h) (log_writable h).
Definition with_addrs (h : Host) (a : gmap string (list Addr)) : Host :=
  mkHost (links h) a (leases h) (dirs h) (files h) (stdout h) (clock h)
         (faults h) (ipam_reply h) (fresh_hwaddr h) (log_writable h).
Definition with_leases (h : Host) (l : list (string * string)) : Host :=
  mkHost (links h) (addrs h) l (dirs h) (files h) (stdout h) (clock h)
         (faults h) (ipam_reply h) (fresh_hwaddr h) (log_writable h).
Definition with_dirs (h : Host) (d : gmap string Z) : Host :=
  mkHost (links h) (addrs h) (leases h) d (files h) (stdout h) (clock h)
         (faults h) (ipam_reply h) (fresh_hwaddr h) (log_writable h).
Definition with_files (h : Host) (f : gmap string (string * Z)) : Host :=
  mkHost (links h) (addrs h) (leases h) (dirs h) f (stdout h) (clock h)
         (faults h) (ipam_reply h) (fresh_hwaddr h) (log_writable h).
Definition with_stdout (h : Host) (o : list (Result * string)) : Host :=
  mkHost (links h) (addrs h) (leases h) (dirs h) (files h) o (clock h)
         (faults h) (ipam_reply h) (fresh_hwaddr h) (log_writable h).
Definition tick (h : Host) : Host :=
  mkHost (links h) (addrs h) (leases h) (dirs h) (files h) (stdout h) (S (clock h))
         (faults h) (ipam_reply h) (fresh_hwaddr h) (log_writable h).

(** Every call counts on the clock; a scheduled fault makes it fail
    without any effect on the host. *)
Definition guarded {A : Type} (onfault : error -> A) (op : Host -> A * Host)
    (h : Host) : A * Host :=
  match faults h (clock h) with
  | Some f => (onfault (fault_error f), tick h)
  | None => op (tick h)
  end.

(** Modelled from the spec: the Link Provider's lookup, which tells
    "not found" apart from other failures. *)
Definition host_LinkByName (name : string) : Host -> (Link + error) * Host :=
  guarded inr (fun h =>
    match links h !! name with
    | Some d => (inl (link_of name d), h)
    | None => (inr (LinkNotFoundError "Link not found"), h)
    end).

(** Modelled from the spec: link creation; the kernel rejects a
    duplicate link name, and a link needs a name.  The new link gets its
    hardware address from the kernel. *)
Definition host_LinkAdd (l : Link) : Host -> option error * Host :=
  guarded Some (fun h =>
    let name := la_Name (Attrs l) in
    if String.eqb name EmptyString then
      (Some (errorString "LinkAttrs.Name cannot be empty"), h)
    else
      match links h !! name with
      | Some _ => (Some (errorString "file exists"), h)
      | None =>
          let d := mkNetdev (kind_of l) (fresh_hwaddr h) (la_Master (Attrs l))
                            (la_Up (Attrs l)) in
          (None, with_links h (<[name := d]> (links h)))
      end).

(** Modelled from the spec: address assignment to an existing link. *)
Definition host_AddrAdd (l : Link) (a : Addr) : Host -> option error * Host :=
  guarded Some (fun h =>
    let name := la_Name (Attrs l) in
    match links h !! name with
    | None => (Some (errorString "no such device"), h)
    | Some _ =>
        let old := default [] (addrs h !! name) in
        if bool_decide (a ∈ old) then (Some (errorString "file exists"), h)
        else (None, with_addrs h (<[name := old ++ [a]]> (addrs h)))
    end).

(** Modelled from the spec: binding a device as a member of a bridge. *)
Definition host_LinkSetMaster (l master : Link) : Host -> option error * Host :=
  guarded Some (fun h =>
    let name := la_Name (Attrs l) in
    let mname := la_Name (Attrs master) in
    match links h !! name, links h !! mname with
    | Some dev, Some m =>
        match nd_kind m with
        | KBridge =>
            let d := mkNetdev (nd_kind dev) (nd_HardwareAddr dev) (Some mname)
                              (nd_Up dev) in
            (None, with_links h (<[name := d]> (links h)))
        | _ => (Some (errorString "operation not supported"), h)
        end
    | _, _ => (Some (errorString "no such device"), h)
    end).

(** Modelled from the spec: bringing a link administratively up. *)
Definition host_LinkSetUp (l : Link) : Host -> option error * Host :=
  guarded Some (fun h =>
    let name := la_Name (Attrs l) in
    match links h !! name with
    | Some dev =>
        let d := mkNetdev (nd_kind dev) (nd_HardwareAddr dev) (nd_Master dev) true in
        (None, with_links h (<[name := d]> (links h)))
    | None => (Some (errorString "no such device"), h)
    end).

(** Modelled from the spec: deletion of a link by name, with "not
    found" as the distinguishable [ErrLinkNotFound]. *)
Definition host_DelLinkByName (name : string) : Host -> option error * Host :=
  guarded Some (fun h =>
    match links h !! name with
    | None => (Some ErrLinkNotFound, h)
    | Some _ =>
        (None, with_addrs (with_links h (delete name (links h)))
                          (delete name (addrs h)))
    end).

(** Modelled from the spec: the Address Allocator; an allocation is
    held until it is released. *)
Definition host_ExecAdd (plugin netconf : string)
    : Host -> (TypesResult + error) * Host :=
  guarded inr (fun h =>
    (inl (ipam_reply h), with_leases h (leases h ++ [(plugin, netconf)]))).

Definition host_ExecDel (plugin netconf : string) : Host -> option error * Host :=
  guarded Some (fun h =>
    (None, with_leases h
             (filter (fun l => l ≠ (plugin, netconf)) (leases h)))).

Definition host_PrintResult (r : Result) (version : string)
    : Host -> option error * Host :=
  guarded Some (fun h => (None, with_stdout h (stdout h ++ [(r, version)]))).

(** The directories on the way to [path], outermost first. *)
Fixpoint dir_chain (rooted : bool) (base : string) (elems : list string)
    : list string :=
  match elems with
  | [] => []
  | e :: rest =>
      if String.eqb e EmptyString then dir_chain rooted base rest
      else
        let p := if (String.eqb base EmptyString && negb rooted)%bool
                 then e else base +:+ "/" +:+ e in
        p :: dir_chain rooted p rest
  end.

(** Modelled from the spec: the Metadata Store's directories, created
    as needed, existing ones left as they are. *)
Definition host_MkdirAll (path : string) (perm : Z) : Host -> option error * Host :=
  guarded Some (fun h =>
    let chain := dir_chain (is_rooted path) EmptyString
                           (split_slash (filepath_Clean path) EmptyString) in
    (None, with_dirs h
             (fold_left (fun d p => match d !! p with
                                    | Some _ => d
                                    | None => <[p := perm]> d
                                    end) chain (dirs h)))).

(** Modelled from the spec: the Metadata Store's file write; the
    directory has to exist, an existing file keeps its mode. *)
Definition host_WriteFile (name data : string) (perm : Z)
    : Host -> option error * Host :=
  guarded Some (fun h =>
    match dirs h !! filepath_Dir name with
    | None => (Some (errorString "no such file or directory"), h)
    | Some _ =>
        let mode := match files h !! name with
                    | Some (_, m) => m
                    | None => perm
                    end in
        (None, with_files h (<[name := (data, mode)]> (files h)))
    end).

Definition host_OpenFile_append (name : string) (perm : Z)
    : Host -> option error * Host :=
  fun h => if log_writable h then (None, h)
           else (Some (errorString "permission denied"), h).

#[global] Instance Host_Provider : Provider Host := {
  netlink_LinkByName := host_LinkByName;
  netlink_LinkAdd := host_LinkAdd;
  netlink_AddrAdd := host_AddrAdd;
  netlink_LinkSetMaster := host_LinkSetMaster;
  netlink_LinkSetUp := host_LinkSetUp;
  ip_DelLinkByName := host_DelLinkByName;
  ipam_ExecAdd := host_ExecAdd;
  ipam_ExecDel := host_ExecDel;
  types_PrintResult := host_PrintResult;
  os_MkdirAll := host_MkdirAll;
  os_WriteFile := host_WriteFile;
  os_OpenFile_append := host_OpenFile_append;
}.

(** ** Library instance and scenarios *)

(** The versions [current.NewResultFromResult] converts from. *)
Definition convertible_versions : list string :=
  ["0.1.0"; "0.2.0"; "0.3.0"; "0.3.1"; "0.4.0"; "1.0.0"].

(** The result conversion of the CNI library: the converted result and
    a nil error, or a nil result and the error. *)
Definition cni_NewResultFromResult (r : TypesResult)
    : option Result * option error :=
  if bool_decide (tr_Version r ∈ convertible_versions) then
    let res := tr_Result r in
    (Some (mkResult "1.0.0" (res_Interfaces res) (res_IPs res) (res_Routes res)
                    (res_DNS res) (res_Annotations res)), None)
  else
    (None, Some (Errorf "cannot convert version %q to %q" [tr_Version r; "1.0.0"])).

(** A JSON object from rendered members. *)
Fixpoint json_members (indent : string) (members : list (string * string)) : string :=
  match members with
  | [] => EmptyString
  | [(k, v)] => indent +:+ quoted k +:+ ": " +:+ v
  | (k, v) :: rest =>
      indent +:+ quoted k +:+ ": " +:+ v +:+ "," +:+ String (ascii_of_nat 10) EmptyString
      +:+ json_members indent rest
  end.

Definition json_object (indent : string) (members : list (string * string)) : string :=
  "{" +:+ String (ascii_of_nat 10) EmptyString +:+ json_members indent members
  +:+ String (ascii_of_nat 10) EmptyString +:+ "}".

(** The scalar members of a record, indented; stands in for
    [json.MarshalIndent] in the scenarios. *)
Definition scalar_MarshalIndent (d : DirectAttachableNetwork) (prefix indent : string)
    : string :=
  json_object (prefix +:+ indent)
    [("networkType", quoted (networkType_string (NetworkType d)));
     ("deviceName", quoted (DeviceName d));
     ("containerInterfaceName", quoted (ContainerInterfaceName d));
     ("dpdkSocketPath", quoted (DPDKSocketPath d));
     ("hwaddr", quoted (HWAddr d));
     ("kernelPath", quoted (KernelPath d));
     ("pciAddr", quoted (PCIAddr d))].

(** A decoder that knows the documents of the scenarios. *)
Definition table_Unmarshal (docs : list (string * NetConf)) (bytes : string)
    : NetConf + error :=
  match List.find (fun d => String.eqb (fst d) bytes) docs with
  | Some d => inl (snd d)
  | None => inr (errorString "unexpected end of JSON input")
  end.

Definition table_Lib (docs : list (string * NetConf)) : Lib := {|
  json_Unmarshal := table_Unmarshal docs;
  json_MarshalIndent := scalar_MarshalIndent;
  NewResultFromResult := cni_NewResultFromResult;
  netip_parseIPv6 := fun _ => None;
|}.

(** Scenario A of the specification. *)
Definition confA : NetConf :=
  mkNetConf "1.0.0" "tapnet" "tap" (mkIPAM "static") "br-test" "10.0.0.1/24".

Definition stdinA : string :=
  json_object " "
    [("cniVersion", quoted "1.0.0"); ("name", quoted "tapnet");
     ("type", quoted "tap"); ("bridge", quoted "br-test");
     ("bridgeIP", quoted "10.0.0.1/24");
     ("ipam", "{" +:+ quoted "type" +:+ ": " +:+ quoted "static" +:+ "}")].

(** The same configuration without a bridge name. *)
Definition confNoBridge : NetConf :=
  mkNetConf "1.0.0" "tapnet" "tap" (mkIPAM "static") EmptyString "10.0.0.1/24".

Definition stdinNoBridge : string :=
  json_object " "
    [("cniVersion", quoted "1.0.0"); ("name", quoted "tapnet");
     ("type", quoted "tap"); ("bridgeIP", quoted "10.0.0.1/24");
     ("ipam", "{" +:+ quoted "type" +:+ ": " +:+ quoted "static" +:+ "}")].

Definition libA : Lib := table_Lib [(stdinA, confA); (stdinNoBridge, confNoBridge)].

Definition argsA : CmdArgs :=
  mkCmdArgs "sandbox-1" "/var/run/netns/sandbox-1" "eth0" EmptyString
            "/opt/cni/bin" stdinA.

Definition argsNoBridge : CmdArgs :=
  mkCmdArgs "sandbox-1" "/var/run/netns/sandbox-1" "eth0" EmptyString
            "/opt/cni/bin" stdinNoBridge.

(** One address, 10.0.0.5/24, as the static delegate answers. *)
Definition one_address : TypesResult :=
  mkTypesResult "1.0.0"
    (mkResult "1.0.0" []
              [Some (mkIPConfig None (mkIPNet [10; 0; 0; 5] [255; 255; 255; 0])
                                [10; 0; 0; 1])]
              [] empty_DNS None).

(** An answer without any address (Scenario B). *)
Definition no_address : TypesResult :=
  mkTypesResult "1.0.0" (mkResult "1.0.0" [] [] [] empty_DNS None).

(** An answer in a version the library has no converter for. *)
Definition unconvertible : TypesResult :=
  mkTypesResult "9.9.9" (tr_Result one_address).

Definition no_faults : nat -> option fault := fun _ => None.

(** The schedule that makes exactly the [n]-th call fail. *)
Definition fail_at (n : nat) (f : fault) : nat -> option fault :=
  fun i => if Nat.eqb i n then Some f else None.

(** A host without links. *)
Definition bare_host (reply : TypesResult) (sched : nat -> option fault) : Host :=
  mkHost ∅ ∅ [] ∅ ∅ [] O sched reply [2; 66; 172; 17; 0; 2] true.

Definition br_test : Netdev := mkNetdev KBridge [2; 66; 10; 0; 0; 1] None true.

(** A host on which the bridge of Scenario A is already there, with
    its address. *)
Definition bridged_host (reply : TypesResult) (sched : nat -> option fault) : Host :=
  mkHost {["br-test" := br_test]}
         {["br-test" := [mkAddr (mkIPNet [10; 0; 0; 1] [255; 255; 255; 0]) EmptyString]]}
         [] ∅ ∅ [] O sched reply [2; 66; 172; 17; 0; 2] true.

(** Running a verb on a host, from an empty trace. *)
Definition run_on {A : Type} (m : IO Host A) (h : Host) : A * Env Host :=
  m (init_env h).

Definition calls_of (t : list event) : list call := map ev_call t.


(** ** Properties of traces *)

Definition is_delete (e : event) : bool :=
  match ev_call e with CDelLinkByName _ => true | _ => false end.

Definition is_release (e : event) : bool :=
  match ev_call e with CExecDel _ _ => true | _ => false end.

Definition is_allocate (e : event) : bool :=
  match ev_call e with CExecAdd _ _ => true | _ => false end.

Definition is_store (e : event) : bool :=
  match ev_call e with CMkdirAll _ _ | CWriteFile _ _ _ => true | _ => false end.

Definition is_write (e : event) : bool :=
  match ev_call e with CWriteFile _ _ _ => true | _ => false end.

Definition is_link_create (e : event) : bool :=
  match ev_call e with CLinkAdd _ => true | _ => false end.

Definition succeeded (e : event) : bool :=
  match ev_err e with None => true | Some _ => false end.

(** Every [p] event of the trace comes before every [q] event. *)
Definition all_before (p q : event -> bool) (t : list event) : Prop :=
  forall (i j : nat) (a b : event),
    t !! i = Some a -> p a = true -> t !! j = Some b -> q b = true -> (i < j)%nat.

(** Every [q] event of the trace has a [p] event somewhere before it. *)
Definition each_after_some (p q : event -> bool) (t : list event) : Prop :=
  forall (j : nat) (b : event),
    t !! j = Some b -> q b = true ->
    exists (i : nat) (a : event), (i < j)%nat /\ t !! i = Some a /\ p a = true.

(** Decision procedures for the two, on a given trace. *)
Fixpoint all_before_b (p q : event -> bool) (t : list event) : bool :=
  match t with
  | [] => true
  | e :: rest =>
      (if q e then forallb (fun x => negb (p x)) (e :: rest) else true)
      && all_before_b p q rest
  end.

Fixpoint each_after_some_b (p q : event -> bool) (seen : bool) (t : list event) : bool :=
  match t with
  | [] => true
  | e :: rest =>
      (if q e then seen else true) && each_after_some_b p q (seen || p e) rest
  end.

(** The state the diagnostic log leaves behind. *)
Definition log_world {W : Type} {P : Provider W} (w : W) : W :=
  snd (os_OpenFile_append "/tmp/cni.log" (octal [6; 0; 0]) w).

Definition log_diag {W : Type} {P : Provider W} (format : string)
    (args : list string) (w : W) (d : list string) : list string :=
  match fst (os_OpenFile_append "/tmp/cni.log" (octal [6; 0; 0]) w) with
  | Some _ => d
  | None => d ++ [Sprintf (format +:+ String (ascii_of_nat 10) EmptyString) args]
  end.

(** Claim C6 as the specification words it, at one invocation: ADD gets
    past the parsing of its configuration, that is, calls a collaborator,
    only when the IPAM type and the bridge name are both present. *)
Definition guards_type_and_bridge (L : Lib) (args : CmdArgs) (h : Host) : Prop :=
  forall conf : NetConf,
    parseNetConf (StdinData args) = inl conf ->
    trace (snd (run_on (cmdAdd args) h)) <> [] ->
    ipam_Type (nc_IPAM conf) <> EmptyString /\ nc_Bridge conf <> EmptyString.

(** The successful creation of the tap device [hostTapName]. *)
Definition tap_created (e : event) : bool :=
  match e with
  | Ev (CLinkAdd (Tuntap a TUNTAP_MODE_TAP)) None => String.eqb (la_Name a) hostTapName
  | _ => false
  end.

Definition allocated (e : event) : bool := is_allocate e && succeeded e.

(** The names of the links a trace asks to delete. *)
Definition deleted_names (t : list event) : list string :=
  omap (fun e => match ev_call e with
                 | CDelLinkByName n => Some n
                 | _ => None
                 end) t.

(** Claim C2 as the specification words it, at one invocation: the
    deletion of the device comes before the release of the address. *)
Definition delete_precedes_release (L : Lib) (args : CmdArgs) (h : Host) : Prop :=
  all_before is_delete is_release (trace (snd (run_on (cmdAdd args) h))).

(** The outcome of DEL after a release that went through, from the
    answer of the link deletion: not found and namespace gone count as
    success. *)
Definition del_outcome (r : option error) : exit :=
  match r with
  | None => Returned None
  | Some ErrLinkNotFound => Returned None
  | Some (NSPathNotExistErr _) => Returned None
  | Some e => Returned (Some e)
  end.

(** A mode that grants nothing to group and others. *)
Definition owner_only (mode : Z) : Prop := Z.land mode (octal [0; 7; 7]) = 0.

(** Claim C9 as the specification words it, at one invocation: every
    directory and file of the record is created with a mode that is
    restricted to the owner. *)
Definition record_owner_only (L : Lib) (args : CmdArgs) (h : Host) : Prop :=
  forall e : event,
    e ∈ trace (snd (run_on (cmdAdd args) h)) ->
    match ev_call e with
    | CMkdirAll _ mode => owner_only mode
    | CWriteFile _ _ mode => owner_only mode
    | _ => True
    end.

(** The record file of an attachment: [<base-dir>/<kind>/<device>.json]. *)
Definition record_path (base : string) (kind : DirectAttachableNetworkType)
    (device : string) : string :=
  base +:+ "/" +:+ networkType_string kind +:+ "/" +:+ device +:+ ".json".

(** What a store event of ADD may be: the creation of the directory of
    the record with mode 0755, or the write of the indented JSON of a tap
    record for [tap0] with mode 0644 to the record path. *)
Definition record_store_event {L : Lib} (args : CmdArgs) (e : event) : Prop :=
  match ev_call e with
  | CMkdirAll path mode =>
      path = "/tmp/dans/tap" /\ mode = octal [7; 5; 5]
  | CWriteFile name data mode =>
      name = record_path "/tmp/dans" DirectAttachableNetworkTypeTap hostTapName
      /\ mode = octal [6; 4; 4]
      /\ exists d : DirectAttachableNetwork,
           data = json_MarshalIndent d EmptyString " "
           /\ NetworkType d = DirectAttachableNetworkTypeTap
           /\ DeviceName d = hostTapName
           /\ ContainerInterfaceName d = IfName args
  | _ => True
  end.

(** Every write has the successful creation of the directory right
    before it; [prev] is the event before the trace, if any. *)
Fixpoint write_follows_mkdir (prev : option event) (t : list event) : bool :=
  match t with
  | [] => true
  | e :: rest =>
      (if is_write e
       then match prev with
            | Some (Ev (CMkdirAll _ _) None) => true
            | _ => false
            end
       else true) && write_follows_mkdir (Some e) rest
  end.

(** The creation of a bridge. *)
Definition creates_bridge (e : event) : bool :=
  match ev_call e with CLinkAdd (Bridge _) => true | _ => false end.

(** The bridge of Scenario A is there and the kernel rejects the bind
    (the third call of ADD on that host). *)
Definition host_bind_rejected : Host :=
  bridged_host one_address (fail_at 2 (KernelRejects "operation not permitted")).

(** The bridge is there and the delegate fails to allocate (the sixth
    call of ADD on that host). *)
Definition host_allocation_fails : Host :=
  bridged_host one_address (fail_at 5 (KernelRejects "delegate failed")).

(** The tap device as the kernel of the scenarios creates it. *)
Definition tap_device (master : option string) (up : bool) : Netdev :=
  mkNetdev (KTuntap TUNTAP_MODE_TAP) [2; 66; 172; 17; 0; 2] master up.

Definition the_tap : Link := Tuntap (attrs_named hostTapName) TUNTAP_MODE_TAP.

(** ** Further observations on traces *)

(** The results a trace hands to [types.PrintResult], with the version
    asked for. *)
Definition printed_results (t : list event) : list (Result * string) :=
  omap (fun e => match ev_call e with
                 | CPrintResult r v => Some (r, v)
                 | _ => None
                 end) t.

(** The bodies a trace hands to [os.WriteFile]. *)
Definition written_data (t : list event) : list string :=
  omap (fun e => match ev_call e with
                 | CWriteFile _ data _ => Some data
                 | _ => None
                 end) t.

(** The tap link was brought up. *)
Definition setup_ok (e : event) : bool :=
  match e with Ev (CLinkSetUp _) None => true | _ => false end.

(** The result was printed. *)
Definition printed_ok (e : event) : bool :=
  match e with Ev (CPrintResult _ _) None => true | _ => false end.

Definition is_print (e : event) : bool :=
  match ev_call e with CPrintResult _ _ => true | _ => false end.

(** The allocation was asked for and failed. *)
Definition alloc_failed (e : event) : bool := is_allocate e && negb (succeeded e).

(** The body ADD writes for the result [r]. *)
Definition record_body {L : Lib} (args : CmdArgs) (r : Result) (data : string) : Prop :=
  exists d : DirectAttachableNetwork,
    FromResult DirectAttachableNetworkTypeTap hostTapName (IfName args) (Some r) = inl d
    /\ data = json_MarshalIndent d EmptyString " ".


(** The delegate is called with the IPAM type of the configuration and
    the raw configuration bytes. *)
Definition delegate_args (args : CmdArgs) (conf : NetConf) (e : event) : Prop :=
  match ev_call e with
  | CExecAdd p n | CExecDel p n =>
      p = ipam_Type (nc_IPAM conf) /\ n = StdinData args
  | _ => True
  end.

(** The address given to the bridge: the network [net.ParseCIDR] returns
    for the configured [bridgeIP], without label, on the bridge that was
    just built under the configured name. *)
Definition bridge_addr_args {L : Lib} (conf : NetConf) (e : event) : Prop :=
  match ev_call e with
  | CAddrAdd l a =>
      l = Bridge (attrs_named (nc_Bridge conf))
      /\ exists (ip : IP) (ipnet : IPNet),
           ParseCIDR netip_parseIPv6 (nc_BridgeIP conf) = Some (ip, ipnet)
           /\ a = mkAddr ipnet EmptyString
  | _ => True
  end.

(** What ADD returns when it got as far as printing: the answer of
    [types.PrintResult], without any rollback. *)
Definition print_decides (out : exit) (t : list event) (e : event) : Prop :=
  match ev_call e with
  | CPrintResult _ _ =>
      out = Returned (ev_err e)
      /\ deleted_names t = []
      /\ filter (fun x => is_release x = true) t = []
  | _ => True
  end.

(** A lookup that answered "not found". *)
Definition lookup_missed (e : event) : bool :=
  match e with
  | Ev (CLinkByName _) (Some (LinkNotFoundError _)) => true
  | _ => false
  end.

Definition went_well (e : event) : bool := succeeded e || lookup_missed e.


(** The calls of a [createTapInterface] that returned an error: every
    call but the last went well, nothing is deleted, and the last call
    is the one that failed, unless the bridge was just created and its
    configured address does not parse. *)
Definition tap_failure_shape {L : Lib} (conf : NetConf) (t : list event) : Prop :=
  t <> []
  /\ forallb went_well (removelast t) = true
  /\ existsb is_delete t = false
  /\ (succeeded <$> last t = Some false
      \/ (ParseCIDR netip_parseIPv6 (nc_BridgeIP conf) = None
          /\ exists msg : string,
               t = [Ev (CLinkByName (nc_Bridge conf)) (Some (LinkNotFoundError msg));
                    Ev (CLinkAdd (Bridge (attrs_named (nc_Bridge conf)))) None])).

(** The successful release. *)
Definition released (e : event) : bool := is_release e && succeeded e.

(** The two calls DEL may make. *)
Definition del_call (args : CmdArgs) (conf : NetConf) (e : event) : Prop :=
  ev_call e = CExecDel (ipam_Type (nc_IPAM conf)) (StdinData args)
  \/ ev_call e = CDelLinkByName "tap0".


(** Scenario A with a bridge address that is no CIDR. *)
Definition confBadIP : NetConf :=
  mkNetConf "1.0.0" "tapnet" "tap" (mkIPAM "static") "br-test" "10.0.0.1".

(** An invocation whose configuration is cut short. *)
Definition argsBad : CmdArgs :=
  mkCmdArgs "sandbox-1" "/var/run/netns/sandbox-1" "eth0" EmptyString
            "/opt/cni/bin" "{".

(** The host of Scenario A. *)
Definition hostA : Host := bare_host one_address no_faults.

(** ** The reference host, call by call *)

(** One call on the reference host: the clock advances by one and the
    schedule of faults stays. *)
Definition ticked (h h' : Host) : Prop :=
  clock h' = S (clock h) /\ faults h' = faults h.

(** The record store is left as it was. *)
Definition store_kept (h h' : Host) : Prop :=
  files h' = files h /\ dirs h' = dirs h.

(** The directories [os.MkdirAll] leaves behind on the reference host. *)
Definition dirs_after_mkdir (path : string) (perm : Z) (d : gmap string Z)
    : gmap string Z :=
  fold_left (fun d p => match d !! p with
                        | Some _ => d
                        | None => <[p := perm]> d
                        end)
            (dir_chain (is_rooted path) EmptyString
                       (split_slash (filepath_Clean path) EmptyString)) d.

(** The host of Scenario A after a successful ADD: the bridge, the tap
    device and the allocation are there. *)
Definition host_after_add : Host :=
  world (snd (run_on (cmdAdd (L := libA) argsA) hostA)).

(** The trace from its first store event on. *)
Fixpoint from_first_store (t : list event) : list event :=
  match t with
  | [] => []
  | e :: rest => if is_store e then t else from_first_store rest
  end.

(** The record is dealt with last and once: the store events of the
    trace are its last events, the creation of the directory and, when
    that went through, the write of the file. *)
Definition record_saved_last (t : list event) : bool :=
  match from_first_store t with
  | [Ev (CMkdirAll _ _) (Some _)] => true
  | [Ev (CMkdirAll _ _) None; Ev (CWriteFile _ _ _) _] => true
  | _ => false
  end.

(** How [createTapInterface] comes by its bridge on the state [w]: the
    lookup answers with it; or the lookup answers that there is none,
    and the creation of the bridge and the assignment of the network of
    [bridgeIP] both go through.  [w'] is the state and [calls] are the
    calls after that. *)
Definition bridge_ensured {W : Type} {P : Provider W} {L : Lib}
    (conf : NetConf) (w : W) (br : Link) (w' : W) (calls : list event) : Prop :=
  (netlink_LinkByName (nc_Bridge conf) w = (inl br, w')
   /\ calls = [Ev (CLinkByName (nc_Bridge conf)) None])
  \/ exists (msg : string) (wa wb : W) (ip : IP) (ipnet : IPNet),
       netlink_LinkByName (nc_Bridge conf) w = (inr (LinkNotFoundError msg), wa)
       /\ br = Bridge (attrs_named (nc_Bridge conf))
       /\ netlink_LinkAdd br wa = (None, wb)
       /\ ParseCIDR netip_parseIPv6 (nc_BridgeIP conf) = Some (ip, ipnet)
       /\ netlink_AddrAdd br (mkAddr ipnet EmptyString) wb = (None, w')
       /\ calls = [Ev (CLinkByName (nc_Bridge conf)) (Some (LinkNotFoundError msg));
                   Ev (CLinkAdd br) None;
                   Ev (CAddrAdd br (mkAddr ipnet EmptyString)) None].

(** A run of [createTapInterface] from the state [w] that went through:
    the answers of the Link Provider, each on the state the call before
    it left, the calls made, the interface returned and the state
    left. *)
Definition tap_setup_run {W : Type} {P : Provider W} {L : Lib}
    (conf : NetConf) (ifName : string) (w : W) (iface : Interface)
    (env' : Env W) : Prop :=
  exists (br : Link) (w1 : W) (calls : list event) (w2 w3 : W) (tapGot : Link) (w4 : W),
    let tap := Tuntap (attrs_named ifName) TUNTAP_MODE_TAP in
    bridge_ensured conf w br w1 calls
    /\ netlink_LinkAdd tap w1 = (None, w2)
    /\ netlink_LinkSetMaster tap br w2 = (None, w3)
    /\ netlink_LinkByName ifName w3 = (inl tapGot, w4)
    /\ netlink_LinkSetUp tapGot (log_world w4) = (None, world env')
    /\ trace env' = calls ++ [Ev (CLinkAdd tap) None; Ev (CLinkSetMaster tap br) None;
                              Ev (CLinkByName ifName) None; Ev (CLinkSetUp tapGot) None]
    /\ iface = mkInterface ifName
                           (HardwareAddr_String (la_HardwareAddr (Attrs tapGot)))
                           EmptyString.

(** The three log lines ADD writes before it creates the tap device. *)
Definition add_entry {W : Type} {P : Provider W} {L : Lib}
    (args : CmdArgs) (conf : NetConf) : IO W unit :=
  Log banner_Add [] ;;;
  Log "args %+v" [show_CmdArgs args] ;;;
  Log "conf %+v" [show_NetConf conf].

(** An answer whose list of addresses holds a nil entry after its
    first address. *)
Definition nil_address : TypesResult :=
  mkTypesResult "1.0.0"
    (mkResult "1.0.0" []
              [Some (mkIPConfig None (mkIPNet [10; 0; 0; 5] [255; 255; 255; 0])
                                [10; 0; 0; 1]);
               None]
              [] empty_DNS None).

(** * Proofs *)

Lemma Log_run {W : Type} {P : Provider W} (format : string) (args : list string)
    (env : Env W) :
  Log format args env
  = (tt, mkEnv (log_world (world env)) (trace env)
               (log_diag format args (world env) (diag env))).
Proof.
  unfold Log, log_world, log_diag.
  destruct (os_OpenFile_append _ _ _) as [[e|] w]; reflexivity.
Qed.

(** Symbolic execution of a verb: unfold the sequencing, rewrite the
    log writes, and split on the answer of each collaborator. *)
Ltac unfold_io :=
  unfold io_bind, io_ret, traced, LinkByName, LinkAdd, AddrAdd, LinkSetMaster,
    LinkSetUp, DelLinkByName, ExecAdd, ExecDel, PrintResult, MkdirAll, WriteFile,
    deferred_Log, deferred_Save, deferred_DelLink, deferred_ExecDel, Save,
    FromResult, id.

Ltac split_answer :=
  match goal with
  | |- context [netlink_LinkByName ?x1 ?st] =>
      destruct (netlink_LinkByName x1 st) as [[?l | [?m | | ?m | ?m]] ?w] eqn:?
  | |- context [netlink_LinkAdd ?x1 ?st] =>
      destruct (netlink_LinkAdd x1 st) as [[?e |] ?w] eqn:?
  | |- context [netlink_AddrAdd ?x1 ?x2 ?st] =>
      destruct (netlink_AddrAdd x1 x2 st) as [[?e |] ?w] eqn:?
  | |- context [netlink_LinkSetMaster ?x1 ?x2 ?st] =>
      destruct (netlink_LinkSetMaster x1 x2 st) as [[?e |] ?w] eqn:?
  | |- context [netlink_LinkSetUp ?x1 ?st] =>
      destruct (netlink_LinkSetUp x1 st) as [[?e |] ?w] eqn:?
  | |- context [ip_DelLinkByName ?x1 ?st] =>
      destruct (ip_DelLinkByName x1 st) as [?e ?w] eqn:?
  | |- context [ipam_ExecAdd ?x1 ?x2 ?st] =>
      destruct (ipam_ExecAdd x1 x2 st) as [[?r | ?e] ?w] eqn:?
  | |- context [ipam_ExecDel ?x1 ?x2 ?st] =>
      destruct (ipam_ExecDel x1 x2 st) as [?e ?w] eqn:?
  | |- context [types_PrintResult ?x1 ?x2 ?st] =>
      destruct (types_PrintResult x1 x2 st) as [?e ?w] eqn:?
  | |- context [os_MkdirAll ?x1 ?x2 ?st] =>
      destruct (os_MkdirAll x1 x2 st) as [[?e |] ?w] eqn:?
  | |- context [os_WriteFile ?x1 ?x2 ?x3 ?st] =>
      destruct (os_WriteFile x1 x2 x3 st) as [?e ?w] eqn:?
  | |- context [parseNetConf ?x1] =>
      destruct (parseNetConf x1) as [?conf | ?e] eqn:?
  | |- context [String.eqb ?x1 EmptyString] =>
      destruct (String.eqb_spec x1 EmptyString)
  | |- context [ParseCIDR ?x1 ?x2] =>
      destruct (ParseCIDR x1 x2) as [[?ip ?ipnet] |] eqn:?
  | |- context [NewResultFromResult ?x1] =>
      destruct (NewResultFromResult x1) as [[?res |] [?e |]] eqn:?
  | |- context [Nat.eqb (List.length ?x1) 0] =>
      destruct (Nat.eqb (List.length x1) 0) eqn:?
  | |- context [rebind_IPs ?x1] =>
      destruct (rebind_IPs x1) as [?ips [|]] eqn:?
  end.

Ltac run_io :=
  repeat (first [ rewrite Log_run | progress unfold_io | progress simpl | split_answer ]).

(** Run the verb the goal talks about, once, under a postcondition kept
    abstract while the paths are enumerated. *)
Ltac run_verb v :=
  pattern v;
  let Post := fresh "Post" in
  let HPost := fresh "HPost" in
  match goal with
  | |- ?Q _ => remember Q as Post eqn:HPost
  end;
  unfold run_on, init_env, cmdAdd, cmdDel, cmdCheck, createTapInterface, ensureBridge;
  run_io;
  subst Post; cbv beta.

Lemma all_before_b_sound (p q : event -> bool) (t : list event) :
  all_before_b p q t = true -> all_before p q t.
Proof.
  induction t as [|e rest IH]; intros H i j a b Hi Hp Hj Hq.
  - rewrite lookup_nil in Hi. discriminate.
  - cbn [all_before_b] in H. apply andb_prop in H as [Hhead Hrest].
    destruct j as [|j].
    + cbn in Hj. injection Hj as <-. rewrite Hq in Hhead.
      rewrite forallb_forall in Hhead.
      assert (Hin : In a (e :: rest)).
      { apply list_elem_of_In. eapply list_elem_of_lookup_2. exact Hi. }
      apply Hhead in Hin. rewrite Hp in Hin. discriminate.
    + destruct i as [|i]; [lia|].
      cbn in Hi, Hj. specialize (IH Hrest i j a b Hi Hp Hj Hq). lia.
Qed.

Lemma each_after_some_b_sound_gen (p q : event -> bool) (t : list event) :
  forall seen : bool,
    each_after_some_b p q seen t = true ->
    forall (j : nat) (b : event),
      t !! j = Some b -> q b = true ->
      seen = true \/ exists (i : nat) (a : event), (i < j)%nat /\ t !! i = Some a /\ p a = true.
Proof.
  induction t as [|e rest IH]; intros seen H j b Hj Hq.
  - rewrite lookup_nil in Hj. discriminate.
  - cbn [each_after_some_b] in H. apply andb_prop in H as [Hhead Hrest].
    destruct j as [|j].
    + cbn in Hj. injection Hj as <-. rewrite Hq in Hhead. by left.
    + cbn in Hj. destruct (IH _ Hrest j b Hj Hq) as [Hs | (i & a & Hlt & Hi & Hp)].
      * apply orb_prop in Hs as [-> | Hp]; [by left|].
        right. exists O, e. split; [lia|]. split; [reflexivity | exact Hp].
      * right. exists (S i), a. split; [lia|]. split; [exact Hi | exact Hp].
Qed.

Lemma each_after_some_b_sound (p q : event -> bool) (t : list event) :
  each_after_some_b p q false t = true -> each_after_some p q t.
Proof.
  intros H j b Hj Hq.
  destruct (each_after_some_b_sound_gen p q t false H j b Hj Hq) as [?|?]; [discriminate|done].
Qed.

Section Generic.
Context {W : Type} {P : Provider W} {L : Lib}.

(** C2 (amended): in every ADD, whatever the collaborators answer, a
    release of the address comes before a deletion of the device, never
    after it; the only link ADD ever asks to delete is the tap device
    [tap0], and only after this invocation created it; and a release is
    only asked for after this invocation's allocation succeeded. *)
Theorem C2_release_precedes_delete (args : CmdArgs) (w : W) :
  let t := trace (snd (cmdAdd args (init_env w))) in
  all_before is_release is_delete t
  /\ Forall (eq hostTapName) (deleted_names t)
  /\ each_after_some tap_created is_delete t
  /\ each_after_some allocated is_release t.
Proof.
  cbv zeta.
  run_verb (cmdAdd args (init_env w)).
  all: (split; [apply all_before_b_sound; reflexivity|]).
  all: (split; [cbn; repeat constructor|]).
  all: (split; apply each_after_some_b_sound; reflexivity).
Qed.

(** C6 (amended): ADD calls a collaborator only when its configuration
    parses and the IPAM type is not empty; otherwise it fails at once,
    without any link operation or allocation.  The bridge name is not
    checked: with an IPAM type, ADD goes on to look the bridge up under
    whatever name is configured, the empty one included. *)
Theorem C6_only_the_type_is_checked (args : CmdArgs) (w : W) :
  let out := cmdAdd args (init_env w) in
  match parseNetConf (StdinData args) with
  | inr err => fst out = Returned (Some err) /\ trace (snd out) = []
  | inl conf =>
      if String.eqb (ipam_Type (nc_IPAM conf)) EmptyString
      then fst out = Returned (Some (errors_New "tap interface requires an IPAM configuration"))
           /\ trace (snd out) = []
      else exists (r : option error) (rest : list event),
             trace (snd out) = Ev (CLinkByName (nc_Bridge conf)) r :: rest
  end.
Proof.
  cbv zeta. run_verb (cmdAdd args (init_env w)).
  all: cbn; eauto.
Qed.

Lemma Save_trace (d : DirectAttachableNetwork) (metaFile : string) (env : Env W) :
  exists r : option error,
    trace (snd (Save d metaFile env))
    = trace env
      ++ Ev (CMkdirAll (filepath_Dir metaFile) (octal [7; 5; 5])) r
         :: match r with
            | Some _ => []
            | None =>
                [Ev (CWriteFile metaFile (json_MarshalIndent d EmptyString " ")
                                (octal [6; 4; 4]))
                    (fst (Save d metaFile env))]
            end.
Proof.
  unfold Save. run_io.
  - exists (Some e). reflexivity.
  - exists None. rewrite <- app_assoc. reflexivity.
Qed.


(** One DEL: the release first; its failure ends the verb; otherwise
    the deletion of [tap0], whose answer decides the outcome. *)
Lemma cmdDel_run (args : CmdArgs) (w : W) (conf : NetConf) :
  parseNetConf (StdinData args) = inl conf ->
  let out := cmdDel args (init_env w) in
  let release := CExecDel (ipam_Type (nc_IPAM conf)) (StdinData args) in
  match ipam_ExecDel (ipam_Type (nc_IPAM conf)) (StdinData args)
                     (log_world (log_world w)) with
  | (Some e, w1) =>
      fst out = Returned (Some e)
      /\ trace (snd out) = [Ev release (Some e)]
      /\ world (snd out) = log_world (log_world w1)
  | (None, w1) =>
      fst out = del_outcome (fst (ip_DelLinkByName "tap0" w1))
      /\ trace (snd out)
         = [Ev release None;
            Ev (CDelLinkByName "tap0") (fst (ip_DelLinkByName "tap0" w1))]
      /\ world (snd out)
         = log_world (log_world (snd (ip_DelLinkByName "tap0" w1)))
  end.
Proof.
  intros Hparse. cbv zeta. unfold cmdDel, init_env.
  rewrite Hparse.
  repeat (first [ rewrite Log_run | progress unfold_io | progress simpl ]).
  destruct (ipam_ExecDel _ _ _) as [[e|] w1].
  - repeat (first [ rewrite Log_run | progress unfold_io | progress simpl ]). done.
  - repeat (first [ rewrite Log_run | progress unfold_io | progress simpl ]).
    destruct (ip_DelLinkByName "tap0" w1) as [[[m| |m|m]|] w2];
    repeat (first [ rewrite Log_run | progress unfold_io | progress simpl ]); done.
Qed.
End Generic.

(** ** The reference host: what each call does to the link table *)

Lemma host_log_world (h : Host) : log_world h = h.
Proof.
  unfold log_world, os_OpenFile_append. cbn. unfold host_OpenFile_append.
  destruct (log_writable h); reflexivity.
Qed.

Lemma link_of_name (n : string) (d : Netdev) : la_Name (Attrs (link_of n d)) = n.
Proof. unfold link_of. destruct (nd_kind d); reflexivity. Qed.

Ltac host_op :=
  let Hop := fresh "Hop" in
  intros Hop;
  unfold netlink_LinkByName, netlink_LinkAdd, netlink_AddrAdd, netlink_LinkSetMaster,
    netlink_LinkSetUp, ip_DelLinkByName, ipam_ExecAdd, ipam_ExecDel, types_PrintResult,
    os_MkdirAll, os_WriteFile in Hop; cbn in Hop;
  unfold host_LinkByName, host_LinkAdd, host_AddrAdd, host_LinkSetMaster,
    host_LinkSetUp, host_DelLinkByName, host_ExecAdd, host_ExecDel, host_PrintResult,
    host_MkdirAll, host_WriteFile, guarded in Hop;
  repeat match type of Hop with
         | context [match ?x with _ => _ end] => destruct x eqn:?
         end;
  injection Hop as <- <-; cbn; try done.

Lemma host_op_LinkByName (n : string) (h h' : Host) (r : Link + error) :
  netlink_LinkByName n h = (r, h') ->
  links h' = links h
  /\ match r with
     | inl l => la_Name (Attrs l) = n /\ is_Some (links h !! n)
     | inr (LinkNotFoundError _) => links h !! n = None
     | inr _ => True
     end.
Proof.
  host_op.
  all: try (split; [done|]; split; [apply link_of_name | eauto]).
  all: try (match goal with f : fault |- _ => destruct f; done end).
Qed.

Lemma host_op_LinkAdd (l : Link) (h h' : Host) (r : option error) :
  netlink_LinkAdd l h = (r, h') ->
  match r with
  | None => links h !! la_Name (Attrs l) = None
            /\ exists d, links h' = <[la_Name (Attrs l) := d]> (links h)
  | Some _ => links h' = links h
  end.
Proof. host_op. split; [done | eauto]. Qed.

Lemma host_op_AddrAdd (l : Link) (a : Addr) (h h' : Host) (r : option error) :
  netlink_AddrAdd l a h = (r, h') -> links h' = links h.
Proof. host_op. Qed.

Lemma host_op_LinkSetMaster (l m : Link) (h h' : Host) (r : option error) :
  netlink_LinkSetMaster l m h = (r, h') ->
  match r with
  | None => exists d, links h' = <[la_Name (Attrs l) := d]> (links h)
  | Some _ => links h' = links h
  end.
Proof. host_op. eauto. Qed.

Lemma host_op_LinkSetUp (l : Link) (h h' : Host) (r : option error) :
  netlink_LinkSetUp l h = (r, h') ->
  match r with
  | None => exists d, links h' = <[la_Name (Attrs l) := d]> (links h)
  | Some _ => links h' = links h
  end.
Proof. host_op. eauto. Qed.

Lemma host_op_DelLinkByName (n : string) (h h' : Host) (r : option error) :
  ip_DelLinkByName n h = (r, h') ->
  links h' = match r with None => delete n (links h) | Some _ => links h end.
Proof. host_op. Qed.

Lemma host_op_ExecAdd (p s : string) (h h' : Host) (r : TypesResult + error) :
  ipam_ExecAdd p s h = (r, h') -> links h' = links h.
Proof. host_op. Qed.

Lemma host_op_ExecDel (p s : string) (h h' : Host) (r : option error) :
  ipam_ExecDel p s h = (r, h') -> links h' = links h.
Proof. host_op. Qed.

Lemma host_op_PrintResult (x : Result) (v : string) (h h' : Host) (r : option error) :
  types_PrintResult x v h = (r, h') -> links h' = links h.
Proof. host_op. Qed.

Lemma host_op_MkdirAll (p : string) (m : Z) (h h' : Host) (r : option error) :
  os_MkdirAll p m h = (r, h') -> links h' = links h.
Proof. host_op. Qed.

Lemma host_op_WriteFile (p d : string) (m : Z) (h h' : Host) (r : option error) :
  os_WriteFile p d m h = (r, h') -> links h' = links h.
Proof. host_op. Qed.

Ltac host_facts :=
  rewrite ?host_log_world in *;
  repeat match goal with
  | H : netlink_LinkByName _ _ = _ |- _ =>
      apply host_op_LinkByName in H; cbn in H; destruct H as [? ?]
  | H : netlink_LinkAdd _ _ = _ |- _ => apply host_op_LinkAdd in H; cbn in H
  | H : netlink_AddrAdd _ _ _ = _ |- _ => apply host_op_AddrAdd in H
  | H : netlink_LinkSetMaster _ _ _ = _ |- _ => apply host_op_LinkSetMaster in H; cbn in H
  | H : netlink_LinkSetUp _ _ = _ |- _ => apply host_op_LinkSetUp in H; cbn in H
  | H : ip_DelLinkByName _ _ = _ |- _ => apply host_op_DelLinkByName in H
  | H : ipam_ExecAdd _ _ _ = _ |- _ => apply host_op_ExecAdd in H
  | H : ipam_ExecDel _ _ _ = _ |- _ => apply host_op_ExecDel in H
  | H : types_PrintResult _ _ _ = _ |- _ => apply host_op_PrintResult in H
  | H : os_MkdirAll _ _ _ = _ |- _ => apply host_op_MkdirAll in H
  | H : os_WriteFile _ _ _ _ = _ |- _ => apply host_op_WriteFile in H
  end;
  repeat match goal with
  | H : _ /\ _ |- _ => destruct H
  | H : exists _, _ |- _ => destruct H
  end.

Ltac bridge_is_not_tap conf :=
  match goal with
  | H : links _ !! hostTapName = None, H' : links _ !! nc_Bridge conf = Some _ |- _ =>
      assert (nc_Bridge conf <> hostTapName)
        by (let E := fresh in intros E; rewrite E in H'; rewrite H' in H; discriminate H)
  | _ => idtac
  end.

(** C7: when the configured bridge is there as ADD starts, it is still
    there, unchanged, when ADD ends, on every path and whatever fails on
    the way: ADD never creates a bridge then, and never asks for the
    deletion of the link that bears the bridge's name. *)
Theorem C7_existing_bridge_is_kept (L : Lib) (args : CmdArgs) (h : Host) (conf : NetConf) (d : Netdev) :
  parseNetConf (StdinData args) = inl conf ->
  links h !! nc_Bridge conf = Some d ->
  let out := run_on (cmdAdd args) h in
  links (world (snd out)) !! nc_Bridge conf = Some d
  /\ Forall (fun e => creates_bridge e = false) (trace (snd out))
  /\ nc_Bridge conf ∉ deleted_names (trace (snd out)).
Proof.
  intros Hparse Hbr. cbv zeta. unfold run_on.
  run_verb (cmdAdd args (init_env h)).
  all: rewrite Hparse in *; simplify_eq.
  all: host_facts.
  all: cbn [fst snd world trace].
  all: repeat match goal with
       | H : links ?x = _, H' : context [links ?x !! _] |- _ => rewrite H in H'
       end.
  all: try congruence.
  all: repeat match goal with
       | H : la_Name (Attrs _) = _ |- _ => rewrite H in *
       end.
  all: (split;
    [ repeat match goal with
             | H : links ?x = _ |- context [links ?x] => rewrite H
             | |- context [match ?r with Some _ => _ | None => _ end] => destruct r
             end;
      bridge_is_not_tap conf;
      by simplify_map_eq
    | split;
      [ repeat constructor
      | cbn; bridge_is_not_tap conf; set_solver ] ]).
Qed.

Ltac split_trace t fuel :=
  let rec go k f :=
    lazymatch f with
    | O => fail "no decomposition"
    | S ?f' =>
        first [ exists (take k t); eexists; eexists; split; [reflexivity|]
              | go constr:(S k) f' ]
    end in
  go constr:(O) fuel.


Lemma host_ExecDel_no_fault (p s : string) (h : Host) :
  faults h (clock h) = None ->
  exists h', ipam_ExecDel p s h = (None, h') /\ faults h' = faults h.
Proof.
  intros Hf. unfold ipam_ExecDel. cbn. unfold host_ExecDel, guarded. rewrite Hf.
  eexists. split; reflexivity.
Qed.

Lemma host_DelLinkByName_no_fault (n : string) (h : Host) :
  faults h (clock h) = None ->
  exists r h', ip_DelLinkByName n h = (r, h')
               /\ (r = None \/ r = Some ErrLinkNotFound)
               /\ faults h' = faults h.
Proof.
  intros Hf. unfold ip_DelLinkByName. cbn. unfold host_DelLinkByName, guarded.
  rewrite Hf. cbn. destruct (links h !! n).
  - eexists _, _. split; [reflexivity|]. split; [by left | reflexivity].
  - eexists _, _. split; [reflexivity|]. split; [by right | reflexivity].
Qed.


(** C1 (the code at the failing input): the bridge exists and the kernel
    rejects the bind.  ADD returns the bind error and never calls the
    Address Allocator, but it does not ask for the deletion of the tap
    device it created: [tap0] is still on the host when ADD returns. *)
Theorem C1_bind_failure_leaves_tap :
  let out := run_on (cmdAdd (L := libA) argsA) host_bind_rejected in
  fst out
  = Returned (Some (Errorf "failed to link tap device %q to master %+v: %v"
                           ["tap0"; "br-test"; "operation not permitted"]))
  /\ calls_of (trace (snd out))
     = [CLinkByName "br-test"; CLinkAdd the_tap;
        CLinkSetMaster the_tap (link_of "br-test" br_test)]
  /\ links (world (snd out)) !! "tap0" = Some (tap_device None false)
  /\ links host_bind_rejected !! "tap0" = None.
Proof. vm_compute. repeat split. Qed.

(** C4 (the code at the failing input): the delegate answers without any
    address.  ADD returns the error for the missing IP configuration,
    but asks neither for the deletion of the tap device nor for the
    release of the allocation: [tap0] is still on the host, up and bound
    to the bridge, and the allocation is still held. *)
Theorem C4_empty_allocation_no_rollback :
  let out := run_on (cmdAdd (L := libA) argsA) (bare_host no_address no_faults) in
  fst out = Returned (Some (errors_New "IPAM plugin returned missing IP config"))
  /\ deleted_names (trace (snd out)) = []
  /\ filter (fun e => is_release e = true) (trace (snd out)) = []
  /\ links (world (snd out)) !! "tap0" = Some (tap_device (Some "br-test") true)
  /\ leases (world (snd out)) = [("static", stdinA)].
Proof. vm_compute. repeat split. Qed.

(** C5 (the code at the failing input): Scenario A, the bridge is not
    there.  ADD creates it, but the address it assigns is the network
    that [net.ParseCIDR] returns, 10.0.0.0/24, not the configured
    address 10.0.0.1/24. *)
Theorem C5_bridge_gets_network_address :
  let out := run_on (cmdAdd (L := libA) argsA) (bare_host one_address no_faults) in
  fst out = Returned None
  /\ nc_BridgeIP confA = "10.0.0.1/24"
  /\ ParseCIDR (fun _ => None) "10.0.0.1/24"
     = Some (v4InV6Prefix ++ [10; 0; 0; 1],
             mkIPNet [10; 0; 0; 0] [255; 255; 255; 0])
  /\ addrs (world (snd out)) !! "br-test"
     = Some [mkAddr (mkIPNet [10; 0; 0; 0] [255; 255; 255; 0]) EmptyString]
  /\ mkAddr (mkIPNet [10; 0; 0; 1] [255; 255; 255; 0]) EmptyString
     ∉ default [] (addrs (world (snd out)) !! "br-test").
Proof.
  vm_compute. repeat split.
  intros H. apply list_elem_of_In in H. destruct H as [H | []]. discriminate H.
Qed.

(** C10 (the code at the failing input): the tap interface was created
    and the allocation went through, but the result cannot be converted.
    The conversion hands back a nil result, the deferred closure that
    builds the record dereferences it, and ADD ends in a panic: neither
    the directory nor the file of the record is ever asked for. *)
Theorem C10_conversion_failure_panics :
  let out := run_on (cmdAdd (L := libA) argsA) (bare_host unconvertible no_faults) in
  NewResultFromResult (Lib := libA) unconvertible
  = (None, Some (Errorf "cannot convert version %q to %q" ["9.9.9"; "1.0.0"]))
  /\ fst out = Panicked nil_deref
  /\ filter (fun e => is_store e = true) (trace (snd out)) = []
  /\ files (world (snd out)) = ∅
  /\ links (world (snd out)) !! "tap0" = None.
Proof. vm_compute. repeat split. Qed.

(** C2 (as stated) fails: when the result conversion fails, the release
    is the ninth call and the deletion of the device the tenth. *)
Lemma C2_delete_before_release_refuted :
  ~ delete_precedes_release libA argsA (bare_host unconvertible no_faults).
Proof.
  unfold delete_precedes_release, all_before. intros H.
  assert (Hlt : (9 < 8)%nat).
  { eapply (H 9%nat 8%nat); [vm_compute; reflexivity | reflexivity
                            | vm_compute; reflexivity | reflexivity]. }
  lia.
Qed.

(** C6 (as stated) fails: with an IPAM type and without a bridge name
    ADD goes on to call the Link Provider. *)
Lemma C6_empty_bridge_name_refuted :
  ~ guards_type_and_bridge libA argsNoBridge (bare_host one_address no_faults).
Proof.
  unfold guards_type_and_bridge. intros H.
  destruct (H confNoBridge) as [_ Hbridge].
  - vm_compute. reflexivity.
  - vm_compute. discriminate.
  - apply Hbridge. reflexivity.
Qed.

(** C9 (as stated) fails: the directory of the record is created with
    mode 0755, which grants read and search to group and others. *)
Lemma C9_owner_only_refuted :
  ~ record_owner_only libA argsA (bare_host one_address no_faults).
Proof.
  unfold record_owner_only. intros H.
  specialize (H (Ev (CMkdirAll "/tmp/dans/tap" (octal [7; 5; 5])) None)).
  cbn in H. unfold owner_only in H.
  assert (Hin : Ev (CMkdirAll "/tmp/dans/tap" (octal [7; 5; 5])) None
                ∈ trace (snd (run_on (cmdAdd (L := libA) argsA)
                                     (bare_host one_address no_faults)))).
  { apply (list_elem_of_lookup_2 _ 9%nat). vm_compute. reflexivity. }
  specialize (H Hin). vm_compute in H. discriminate H.
Qed.


Lemma C7_existing_bridge_witness :
  parseNetConf (L := libA) (StdinData argsA) = inl confA
  /\ links (bridged_host one_address no_faults) !! nc_Bridge confA = Some br_test
  /\ links (world (snd (run_on (cmdAdd (L := libA) argsA)
                               (bridged_host one_address no_faults))))
       !! nc_Bridge confA = Some br_test.
Proof.
  assert (Hparse : parseNetConf (L := libA) (StdinData argsA) = inl confA)
    by (vm_compute; reflexivity).
  assert (Hbr : links (bridged_host one_address no_faults) !! nc_Bridge confA
                = Some br_test) by (vm_compute; reflexivity).
  split; [exact Hparse|]. split; [exact Hbr|].
  exact (proj1 (C7_existing_bridge_is_kept libA argsA
                  (bridged_host one_address no_faults) confA br_test Hparse Hbr)).
Defined.

(** ** The reference host: clock, schedule and record store *)

Ltac host_op2 :=
  let Hop := fresh "Hop" in
  intros Hop;
  unfold netlink_LinkByName, netlink_LinkAdd, netlink_AddrAdd, netlink_LinkSetMaster,
    netlink_LinkSetUp, ip_DelLinkByName, ipam_ExecAdd, ipam_ExecDel, types_PrintResult,
    os_MkdirAll, os_WriteFile in Hop; cbn in Hop;
  unfold host_LinkByName, host_LinkAdd, host_AddrAdd, host_LinkSetMaster,
    host_LinkSetUp, host_DelLinkByName, host_ExecAdd, host_ExecDel, host_PrintResult,
    host_MkdirAll, host_WriteFile, guarded in Hop;
  repeat match type of Hop with
         | context [match ?x with _ => _ end] => destruct x eqn:?
         end;
  injection Hop as <- <-; unfold ticked, store_kept; cbn; try done.

Lemma host_tick_LinkByName (n : string) (h h' : Host) (r : Link + error) :
  netlink_LinkByName n h = (r, h') -> ticked h h' /\ store_kept h h'.
Proof. host_op2. Qed.

Lemma host_tick_LinkAdd (l : Link) (h h' : Host) (r : option error) :
  netlink_LinkAdd l h = (r, h') -> ticked h h' /\ store_kept h h'.
Proof. host_op2. Qed.

Lemma host_tick_AddrAdd (l : Link) (a : Addr) (h h' : Host) (r : option error) :
  netlink_AddrAdd l a h = (r, h') -> ticked h h' /\ store_kept h h'.
Proof. host_op2. Qed.

Lemma host_tick_LinkSetMaster (l m : Link) (h h' : Host) (r : option error) :
  netlink_LinkSetMaster l m h = (r, h') -> ticked h h' /\ store_kept h h'.
Proof. host_op2. Qed.

Lemma host_tick_LinkSetUp (l : Link) (h h' : Host) (r : option error) :
  netlink_LinkSetUp l h = (r, h') -> ticked h h' /\ store_kept h h'.
Proof. host_op2. Qed.

Lemma host_tick_ExecAdd (p s : string) (h h' : Host) (r : TypesResult + error) :
  ipam_ExecAdd p s h = (r, h') -> ticked h h' /\ store_kept h h'.
Proof. host_op2. Qed.

Lemma host_tick_ExecDel (p s : string) (h h' : Host) (r : option error) :
  ipam_ExecDel p s h = (r, h') -> ticked h h' /\ store_kept h h'.
Proof. host_op2. Qed.

Lemma host_tick_PrintResult (x : Result) (v : string) (h h' : Host) (r : option error) :
  types_PrintResult x v h = (r, h') -> ticked h h' /\ store_kept h h'.
Proof. host_op2. Qed.

Lemma host_tick_DelLinkByName (n : string) (h h' : Host) (r : option error) :
  ip_DelLinkByName n h = (r, h') ->
  ticked h h' /\ store_kept h h'
  /\ (faults h (clock h) = None -> is_Some (links h !! n) -> r = None).
Proof.
  host_op2.
  all: repeat split; intros; cbn in *; try congruence.
  all: repeat match goal with H : is_Some _ |- _ => destruct H end; congruence.
Qed.

Lemma host_tick_MkdirAll (p : string) (m : Z) (h h' : Host) (r : option error) :
  os_MkdirAll p m h = (r, h') ->
  ticked h h' /\ files h' = files h
  /\ (faults h (clock h) = None ->
      r = None /\ dirs h' = dirs_after_mkdir p m (dirs h)).
Proof.
  host_op2.
  all: repeat split; intros; cbn in *; try congruence.
Qed.

Lemma host_tick_WriteFile (n d : string) (m : Z) (h h' : Host) (r : option error) :
  os_WriteFile n d m h = (r, h') ->
  ticked h h' /\ dirs h' = dirs h
  /\ (faults h (clock h) = None -> is_Some (dirs h !! filepath_Dir n) ->
      r = None
      /\ files h' = <[n := (d, match files h !! n with
                               | Some (_, m0) => m0
                               | None => m
                               end)]> (files h)).
Proof.
  host_op2.
  all: repeat split; intros; cbn in *; try congruence.
  all: repeat match goal with
              | H : files _ !! _ = _ |- _ => rewrite H
              | H : is_Some _ |- _ => destruct H
              end; congruence.
Qed.

(** What every call of a run did to the reference host: link table,
    clock, schedule and record store. *)
Ltac host_facts_all :=
  rewrite ?host_log_world in *;
  repeat match goal with
  | H : netlink_LinkByName _ _ = _ |- _ =>
      pose proof (host_tick_LinkByName _ _ _ _ H);
      apply host_op_LinkByName in H; cbn in H
  | H : netlink_LinkAdd _ _ = _ |- _ =>
      pose proof (host_tick_LinkAdd _ _ _ _ H);
      apply host_op_LinkAdd in H; cbn in H
  | H : netlink_AddrAdd _ _ _ = _ |- _ =>
      pose proof (host_tick_AddrAdd _ _ _ _ _ H);
      apply host_op_AddrAdd in H
  | H : netlink_LinkSetMaster _ _ _ = _ |- _ =>
      pose proof (host_tick_LinkSetMaster _ _ _ _ _ H);
      apply host_op_LinkSetMaster in H; cbn in H
  | H : netlink_LinkSetUp _ _ = _ |- _ =>
      pose proof (host_tick_LinkSetUp _ _ _ _ H);
      apply host_op_LinkSetUp in H; cbn in H
  | H : ip_DelLinkByName _ _ = _ |- _ =>
      pose proof (host_tick_DelLinkByName _ _ _ _ H);
      apply host_op_DelLinkByName in H
  | H : ipam_ExecAdd _ _ _ = _ |- _ =>
      pose proof (host_tick_ExecAdd _ _ _ _ _ H);
      apply host_op_ExecAdd in H
  | H : ipam_ExecDel _ _ _ = _ |- _ =>
      pose proof (host_tick_ExecDel _ _ _ _ _ H);
      apply host_op_ExecDel in H
  | H : types_PrintResult _ _ _ = _ |- _ =>
      pose proof (host_tick_PrintResult _ _ _ _ _ H);
      apply host_op_PrintResult in H
  | H : os_MkdirAll _ _ _ = _ |- _ =>
      pose proof (host_tick_MkdirAll _ _ _ _ _ H);
      apply host_op_MkdirAll in H
  | H : os_WriteFile _ _ _ _ = _ |- _ =>
      pose proof (host_tick_WriteFile _ _ _ _ _ _ H);
      apply host_op_WriteFile in H
  end;
  unfold ticked, store_kept in *;
  repeat match goal with
  | H : _ /\ _ |- _ => destruct H
  | H : exists _, _ |- _ => destruct H
  end.

(** Express clock, schedule and link table of every intermediate host
    by those of the host the run started on. *)
Ltac to_initial_host :=
  repeat match goal with
  | H : clock ?x = _ |- _ => is_var x; rewrite H in *; clear H
  | H : faults ?x = _ |- _ => is_var x; rewrite H in *; clear H
  end.



Lemma host_cmdDel_no_fault (L : Lib) (args : CmdArgs) (h : Host) (conf : NetConf) :
  parseNetConf (StdinData args) = inl conf ->
  (forall i, faults h i = None) ->
  let out := run_on (cmdDel args) h in
  fst out = Returned None
  /\ faults (world (snd out)) = faults h
  /\ links (world (snd out)) = delete "tap0" (links h)
  /\ leases (world (snd out))
     = filter (fun l => l <> (ipam_Type (nc_IPAM conf), StdinData args)) (leases h)
  /\ trace (snd out)
     = [Ev (CExecDel (ipam_Type (nc_IPAM conf)) (StdinData args)) None;
        Ev (CDelLinkByName "tap0")
           (match links h !! "tap0" with
            | Some _ => None
            | None => Some ErrLinkNotFound
            end)].
Proof.
  intros Hparse Hf. cbv zeta. unfold run_on.
  pose proof (cmdDel_run args h conf Hparse) as Hrun. cbv zeta in Hrun.
  rewrite !host_log_world in Hrun.
  unfold ipam_ExecDel, ip_DelLinkByName in Hrun. cbn in Hrun.
  unfold host_ExecDel, host_DelLinkByName, guarded in Hrun.
  rewrite Hf in Hrun. cbn in Hrun. rewrite Hf in Hrun. cbn in Hrun.
  destruct (links h !! "tap0") as [d|] eqn:Hl; cbn in Hrun;
    rewrite !host_log_world in Hrun; destruct Hrun as (Hout & Ht & Hw);
    rewrite Hout, Ht, Hw; cbn; repeat split.
  symmetry. apply delete_id. exact Hl.
Qed.

(** C8: DEL calls the release of the Address Allocator first, on the
    state its two first log lines leave.  When the release answers with
    an error DEL returns that error and calls nothing else.  Otherwise
    DEL asks for the deletion of [tap0], and what the deletion answers
    decides: success when it went through, when the device was not found
    and when the namespace is gone, the error of the deletion in every
    other case.  So on the reference host, when no call is made to fail,
    DEL succeeds, leaves no link [tap0] and no allocation for this
    configuration, and a second DEL right after succeeds as well,
    finding the device absent. *)
Theorem C8_del_releases_then_deletes {W : Type} {P : Provider W} (L : Lib)
    (args : CmdArgs) (w : W) (conf : NetConf) :
  parseNetConf (StdinData args) = inl conf ->
  let out := cmdDel args (init_env w) in
  let plugin := ipam_Type (nc_IPAM conf) in
  let release := CExecDel plugin (StdinData args) in
  match ipam_ExecDel plugin (StdinData args) (log_world (log_world w)) with
  | (Some e, w1) =>
      fst out = Returned (Some e)
      /\ trace (snd out) = [Ev release (Some e)]
      /\ world (snd out) = log_world (log_world w1)
  | (None, w1) =>
      let answer := fst (ip_DelLinkByName "tap0" w1) in
      trace (snd out) = [Ev release None; Ev (CDelLinkByName "tap0") answer]
      /\ fst out = match answer with
                   | None => Returned None
                   | Some ErrLinkNotFound => Returned None
                   | Some (NSPathNotExistErr _) => Returned None
                   | Some e => Returned (Some e)
                   end
      /\ world (snd out) = log_world (log_world (snd (ip_DelLinkByName "tap0" w1)))
  end
  /\ forall h : Host,
       (forall i, faults h i = None) ->
       let first := run_on (cmdDel args) h in
       let second := run_on (cmdDel args) (world (snd first)) in
       fst first = Returned None
       /\ links (world (snd first)) = delete "tap0" (links h)
       /\ leases (world (snd first))
          = filter (fun l => l <> (plugin, StdinData args)) (leases h)
       /\ fst second = Returned None
       /\ trace (snd second)
          = [Ev release None; Ev (CDelLinkByName "tap0") (Some ErrLinkNotFound)]
       /\ links (world (snd second)) = delete "tap0" (links h).
Proof.
  intros Hparse. cbv zeta. split.
  - pose proof (cmdDel_run args w conf Hparse) as Hrun. cbv zeta in Hrun.
    destruct (ipam_ExecDel _ _ _) as [[e|] w1].
    + exact Hrun.
    + destruct Hrun as (Hout & Ht & Hw). split; [exact Ht|]. split; [|exact Hw].
      rewrite Hout. unfold del_outcome. reflexivity.
  - intros h Hf.
    destruct (host_cmdDel_no_fault L args h conf Hparse Hf)
      as (H1 & Hf1 & Hl1 & Hle1 & _).
    assert (Hf' : forall i, faults (world (snd (run_on (cmdDel args) h))) i = None)
      by (intros i; rewrite Hf1; apply Hf).
    destruct (host_cmdDel_no_fault L args _ conf Hparse Hf')
      as (H2 & _ & Hl2 & _ & Ht2).
    split; [exact H1|]. split; [exact Hl1|]. split; [exact Hle1|].
    split; [exact H2|]. split.
    + rewrite Ht2, Hl1, lookup_delete_eq. reflexivity.
    + rewrite Hl2, Hl1. apply delete_delete_eq.
Qed.

Lemma C8_del_witness :
  parseNetConf (L := libA) (StdinData argsA) = inl confA
  /\ (forall i, faults host_after_add i = None)
  /\ is_Some (links host_after_add !! "tap0")
  /\ leases host_after_add = [("static", stdinA)]
  /\ fst (run_on (cmdDel (L := libA) argsA) host_after_add) = Returned None
  /\ links (world (snd (run_on (cmdDel (L := libA) argsA) host_after_add))) !! "tap0"
     = None
  /\ leases (world (snd (run_on (cmdDel (L := libA) argsA) host_after_add))) = []
  /\ fst (run_on (cmdDel (L := libA) argsA)
            (world (snd (run_on (cmdDel (L := libA) argsA) host_after_add))))
     = Returned None.
Proof.
  assert (Hparse : parseNetConf (L := libA) (StdinData argsA) = inl confA)
    by (vm_compute; reflexivity).
  assert (Hf : forall i, faults host_after_add i = None)
    by (intros i; vm_compute; reflexivity).
  split; [exact Hparse|]. split; [exact Hf|].
  split; [vm_compute; eexists; reflexivity|].
  split; [vm_compute; reflexivity|].
  destruct (C8_del_releases_then_deletes libA argsA host_after_add confA Hparse)
    as [_ Hhost].
  destruct (Hhost host_after_add Hf) as (H1 & Hl & Hle & H2 & _).
  split; [exact H1|].
  split; [rewrite Hl; apply lookup_delete_eq|].
  split; [rewrite Hle; vm_compute; reflexivity|].
  exact H2.
Defined.

Lemma record_dir_chain :
  dir_chain (is_rooted "/tmp/dans/tap") EmptyString
            (split_slash (filepath_Clean "/tmp/dans/tap") EmptyString)
  = ["/tmp"; "/tmp/dans"; "/tmp/dans/tap"].
Proof. vm_compute. reflexivity. Qed.

Lemma dirs_after_mkdir_record (m : Z) (d : gmap string Z) (q : string) :
  dirs_after_mkdir "/tmp/dans/tap" m d !! q
  = if bool_decide (q ∈ ["/tmp"; "/tmp/dans"; "/tmp/dans/tap"])
    then Some (default m (d !! q))
    else d !! q.
Proof.
  unfold dirs_after_mkdir. rewrite record_dir_chain. cbn [fold_left].
  case_bool_decide as Hq.
  - rewrite !elem_of_cons in Hq. rewrite elem_of_nil in Hq.
    destruct Hq as [-> | [-> | [-> | []]]];
      repeat case_match; simplify_map_eq; reflexivity.
  - rewrite !not_elem_of_cons in Hq. destruct Hq as (? & ? & ? & _).
    repeat case_match; simplify_map_eq; reflexivity.
Qed.

Lemma cmdAdd_store_events {W : Type} {P : Provider W} (L : Lib)
    (args : CmdArgs) (w : W) :
  let out := cmdAdd args (init_env w) in
  let t := trace (snd out) in
  Forall (record_store_event args) t
  /\ write_follows_mkdir None t = true
  /\ (existsb setup_ok t = true -> (exists e, fst out = Returned e) ->
      record_saved_last t = true)
  /\ (existsb is_store t = true -> record_saved_last t = true).
Proof.
  cbv zeta. run_verb (cmdAdd args (init_env w)).
  all: split;
    [ repeat (constructor;
              [ first [ exact I
                      | split; [reflexivity|]; first
                          [ reflexivity
                          | split; [reflexivity|]; eexists;
                            split; [reflexivity|]; repeat split ] ] |]);
      constructor
    | split; [reflexivity|] ].
  all: split;
    [ intros Hs [x Hr]; cbn in Hs, Hr;
      first [ discriminate Hs | discriminate Hr | reflexivity ]
    | intros Hs; cbn in Hs; first [ discriminate Hs | reflexivity ] ].
Qed.

Lemma metaFile_value :
  Sprintf "/tmp/dans/tap/%s.json" [hostTapName] = "/tmp/dans/tap/tap0.json".
Proof. vm_compute. reflexivity. Qed.

Lemma metaFile_dir : filepath_Dir "/tmp/dans/tap/tap0.json" = "/tmp/dans/tap".
Proof. vm_compute. reflexivity. Qed.

Lemma record_dir_made (m : Z) (d : gmap string Z) :
  is_Some (dirs_after_mkdir "/tmp/dans/tap" m d !! "/tmp/dans/tap").
Proof. rewrite dirs_after_mkdir_record. cbn. eauto. Qed.

(** Express the record store of every intermediate host by that of the
    host the run started on. *)
Ltac to_initial_store :=
  repeat match goal with
  | H : files ?x = _ |- _ => is_var x; rewrite H in *; clear H
  | H : dirs ?x = _ |- _ => is_var x; rewrite H in *; clear H
  end.

Lemma host_record_written (L : Lib) (args : CmdArgs) (h : Host)
    (k : nat) (p : string) (m : Z) (r : option error) :
  let out := run_on (cmdAdd args) h in
  trace (snd out) !! k = Some (Ev (CMkdirAll p m) r) ->
  faults h (k + clock h) = None ->
  faults h (S k + clock h) = None ->
  r = None
  /\ (exists body : string,
        trace (snd out) !! S k
        = Some (Ev (CWriteFile "/tmp/dans/tap/tap0.json" body (octal [6; 4; 4])) None)
        /\ files (world (snd out))
           = <["/tmp/dans/tap/tap0.json" :=
                 (body, match files h !! "/tmp/dans/tap/tap0.json" with
                        | Some (_, m0) => m0
                        | None => octal [6; 4; 4]
                        end)]> (files h))
  /\ dirs (world (snd out)) = dirs_after_mkdir "/tmp/dans/tap" (octal [7; 5; 5]) (dirs h).
Proof.
  cbv zeta. unfold run_on.
  run_verb (cmdAdd args (init_env h)).
  all: cbn [fst snd world trace]; intros Hk Hf1 Hf2.
  all: repeat (destruct k as [|k]; cbn in Hk; try discriminate Hk).
  all: injection Hk as <- <- <-.
  all: cbn in Hf1, Hf2.
  all: host_facts_all.
  all: to_initial_host.
  all: rewrite ?metaFile_value, ?metaFile_dir in *.
  all: match goal with
       | H : faults _ _ = None -> _ = None /\ dirs _ = _ |- _ =>
           destruct (H Hf1) as [Hnone Hdirs]; clear H
       end.
  all: try discriminate Hnone.
  all: match goal with
       | H : faults _ _ = None -> is_Some _ -> _ = None /\ files _ = _ |- _ =>
           destruct (H Hf2) as [-> Hfiles];
             [ rewrite Hdirs; apply record_dir_made | clear H ]
       end.
  all: split; [reflexivity|].
  all: split; [eexists; split; [reflexivity|] |].
  all: to_initial_store.
  all: reflexivity.
Qed.

(** C9 (amended): ADD keeps the record of the attachment in the file
    [/tmp/dans/tap/tap0.json], that is [<base-dir>/<kind>/<device>.json].
    Every store call of ADD is the creation of the directory
    [/tmp/dans/tap] with mode 0755 (owner rwx, group and others read and
    search) or the write of the indented JSON of a tap record for
    [tap0] to that file with mode 0644 (owner read/write, group and
    others read), and a write comes right after a successful creation
    of the directory.  The record is dealt with whenever the tap device
    was set up and ADD returns, as the last thing ADD does: the
    directory is created and then, when that went through, the file is
    written.  On the reference host, when neither of the two calls is
    made to fail, both go through; the file then holds the record, with
    the mode it had, or 0644 when it is new; and the directories [/tmp],
    [/tmp/dans] and [/tmp/dans/tap] exist, with the mode they had, or
    0755 when they are new, all other directories being as before. *)
Theorem C9_record_path_and_modes {W : Type} {P : Provider W} (L : Lib)
    (args : CmdArgs) (w : W) :
  let out := cmdAdd args (init_env w) in
  let t := trace (snd out) in
  Forall (record_store_event args) t
  /\ write_follows_mkdir None t = true
  /\ record_path "/tmp/dans" DirectAttachableNetworkTypeTap hostTapName
     = "/tmp/dans/tap/tap0.json"
  /\ filepath_Dir "/tmp/dans/tap/tap0.json" = "/tmp/dans/tap"
  /\ Z.land (octal [6; 4; 4]) (octal [0; 7; 7]) = octal [0; 4; 4]
  /\ Z.land (octal [7; 5; 5]) (octal [0; 7; 7]) = octal [0; 5; 5]
  /\ (existsb setup_ok t = true -> (exists e, fst out = Returned e) ->
      record_saved_last t = true)
  /\ (existsb is_store t = true -> record_saved_last t = true)
  /\ forall (h : Host) (k : nat) (p : string) (m : Z) (r : option error),
       let ran := run_on (cmdAdd args) h in
       trace (snd ran) !! k = Some (Ev (CMkdirAll p m) r) ->
       faults h (k + clock h) = None ->
       faults h (S k + clock h) = None ->
       r = None
       /\ (exists body : string,
             trace (snd ran) !! S k
             = Some (Ev (CWriteFile "/tmp/dans/tap/tap0.json" body (octal [6; 4; 4]))
                        None)
             /\ files (world (snd ran))
                = <["/tmp/dans/tap/tap0.json" :=
                      (body, match files h !! "/tmp/dans/tap/tap0.json" with
                             | Some (_, m0) => m0
                             | None => octal [6; 4; 4]
                             end)]> (files h))
       /\ forall q : string,
            dirs (world (snd ran)) !! q
            = if bool_decide (q ∈ ["/tmp"; "/tmp/dans"; "/tmp/dans/tap"])
              then Some (default (octal [7; 5; 5]) (dirs h !! q))
              else dirs h !! q.
Proof.
  cbv zeta.
  destruct (cmdAdd_store_events L args w) as (Hshape & Hfollows & Hlast & Honly).
  split; [exact Hshape|]. split; [exact Hfollows|].
  split; [reflexivity|]. split; [reflexivity|].
  split; [reflexivity|]. split; [reflexivity|].
  split; [exact Hlast|]. split; [exact Honly|].
  intros h k p m r Hk Hf1 Hf2.
  destruct (host_record_written L args h k p m r Hk Hf1 Hf2)
    as (Hr & Hwrite & Hdirs).
  split; [exact Hr|]. split; [exact Hwrite|].
  intros q. rewrite Hdirs. apply dirs_after_mkdir_record.
Qed.

Lemma C9_record_written_witness :
  existsb setup_ok (trace (snd (run_on (cmdAdd (L := libA) argsA) hostA))) = true
  /\ fst (run_on (cmdAdd (L := libA) argsA) hostA) = Returned None
  /\ trace (snd (run_on (cmdAdd (L := libA) argsA) hostA)) !! 9%nat
     = Some (Ev (CMkdirAll "/tmp/dans/tap" (octal [7; 5; 5])) None)
  /\ faults hostA (9 + clock hostA) = None
  /\ faults hostA (10 + clock hostA) = None
  /\ files hostA !! "/tmp/dans/tap/tap0.json" = None
  /\ dirs hostA !! "/tmp/dans/tap" = None
  /\ record_saved_last (trace (snd (run_on (cmdAdd (L := libA) argsA) hostA))) = true
  /\ (exists body : string,
        files (world (snd (run_on (cmdAdd (L := libA) argsA) hostA)))
          !! "/tmp/dans/tap/tap0.json" = Some (body, octal [6; 4; 4]))
  /\ dirs (world (snd (run_on (cmdAdd (L := libA) argsA) hostA))) !! "/tmp/dans/tap"
     = Some (octal [7; 5; 5]).
Proof.
  assert (Hs : existsb setup_ok (trace (snd (run_on (cmdAdd (L := libA) argsA) hostA)))
               = true) by (vm_compute; reflexivity).
  assert (Hret : fst (run_on (cmdAdd (L := libA) argsA) hostA) = Returned None)
    by (vm_compute; reflexivity).
  assert (Hk : trace (snd (run_on (cmdAdd (L := libA) argsA) hostA)) !! 9%nat
               = Some (Ev (CMkdirAll "/tmp/dans/tap" (octal [7; 5; 5])) None))
    by (vm_compute; reflexivity).
  assert (Hf1 : faults hostA (9 + clock hostA) = None) by (vm_compute; reflexivity).
  assert (Hf2 : faults hostA (10 + clock hostA) = None) by (vm_compute; reflexivity).
  assert (Hfile : files hostA !! "/tmp/dans/tap/tap0.json" = None)
    by (vm_compute; reflexivity).
  assert (Hdir : dirs hostA !! "/tmp/dans/tap" = None) by (vm_compute; reflexivity).
  split; [exact Hs|]. split; [exact Hret|]. split; [exact Hk|].
  split; [exact Hf1|]. split; [exact Hf2|]. split; [exact Hfile|].
  split; [exact Hdir|].
  destruct (C9_record_path_and_modes libA argsA hostA)
    as (_ & _ & _ & _ & _ & _ & Hlast & _ & Hhost).
  split; [apply Hlast; [exact Hs | eexists; exact Hret]|].
  destruct (Hhost hostA 9%nat "/tmp/dans/tap" (octal [7; 5; 5]) None Hk Hf1 Hf2)
    as (_ & (body & _ & Hfiles) & Hdirs).
  split.
  - exists body. rewrite Hfiles, lookup_insert_eq, Hfile. reflexivity.
  - rewrite Hdirs, Hdir. reflexivity.
Defined.

Lemma nonempty_of_length {A : Type} (l : list A) :
  Nat.eqb (List.length l) 0 = false -> l <> [].
Proof. destruct l; [discriminate | discriminate]. Qed.

Ltac split_Forall :=
  cbn; repeat first [ apply List.Forall_nil | apply List.Forall_cons ].

Ltac solve_record :=
  unfold printed_results, written_data; split_Forall;
  try (unfold record_body; cbn; eexists; split; reflexivity).

Section Facts.
Context {W : Type} {P : Provider W} {L : Lib}.

Lemma cmdAdd_facts (args : CmdArgs) (w : W) :
  let out := cmdAdd args (init_env w) in
  let t := trace (snd out) in
  match parseNetConf (StdinData args) with
  | inr err => fst out = Returned (Some err) /\ t = []
  | inl conf =>
      Forall (fun p => snd p = nc_CNIVersion conf) (printed_results t)
      /\ (List.length (printed_results t) <= 1)%nat
      /\ Forall (fun p => Forall (record_body args (fst p)) (written_data t))
                (printed_results t)
      /\ Forall (delegate_args args conf) t
      /\ (List.length (List.filter is_allocate t) <= 1)%nat
      /\ Forall (bridge_addr_args conf) t
      /\ Forall (print_decides (fst out) t) t
      /\ (fst out = Returned None ->
          existsb tap_created t = true /\ existsb setup_ok t = true
          /\ existsb allocated t = true /\ existsb printed_ok t = true
          /\ deleted_names t = [] /\ List.filter is_release t = [])
      /\ each_after_some setup_ok is_allocate t
      /\ each_after_some setup_ok is_store t
      /\ each_after_some allocated is_print t
      /\ ((exists msg, fst out = Panicked msg) ->
          existsb allocated t = true /\ existsb is_print t = false)
      /\ (existsb alloc_failed t = true ->
          Forall (record_body args empty_Result) (written_data t))
      /\ exists (w' : W) (d : list string),
           diag (snd out) = log_diag banner_Add [] w' d
  end.
Proof.
  cbv zeta. run_verb (cmdAdd args (init_env w)).
  all: cbn [fst snd trace diag].
  all: try (split; reflexivity).
  all: (split; [solve [unfold printed_results; split_Forall; reflexivity] |]).
  all: (split; [cbn; lia |]).
  all: (split; [solve [solve_record] |]).
  all: (split; [solve [split_Forall; cbn; first [exact I | split; reflexivity]] |]).
  all: (split; [cbn; lia |]).
  all: (split; [solve [split_Forall; cbn;
                       first [ exact I
                             | split; [reflexivity|]; eexists _, _;
                               split; [eassumption | reflexivity] ]] |]).
  all: (split; [solve [split_Forall; unfold print_decides; cbn;
                       first [exact I | repeat split; reflexivity]] |]).
  all: (split; [ let Hret := fresh in
                 intros Hret;
                 first [ discriminate Hret
                       | injection Hret as ->; repeat split; reflexivity ] |]).
  all: (split; [apply each_after_some_b_sound; reflexivity |]).
  all: (split; [apply each_after_some_b_sound; reflexivity |]).
  all: (split; [apply each_after_some_b_sound; reflexivity |]).
  all: (split; [ let Hp := fresh in
                 intros [? Hp];
                 first [ discriminate Hp | split; reflexivity ] |]).
  all: (split; [ let Hf := fresh in
                 intros Hf; cbn in Hf;
                 first [ discriminate Hf
                       | solve [solve_record] ] |]).
  all: eexists _, _; reflexivity.
Qed.

Lemma createTapInterface_facts (conf : NetConf) (ifName : string) (w : W) :
  let out := createTapInterface conf ifName (init_env w) in
  match fst out with
  | inl iface => tap_setup_run conf ifName w iface (snd out)
  | inr _ => tap_failure_shape conf (trace (snd out))
  end.
Proof.
  cbv zeta. run_verb (createTapInterface conf ifName (init_env w)).
  all: cbn [fst snd trace].
  all: first
    [ (* failure *)
      split; [discriminate|]; split; [reflexivity|]; split; [reflexivity|];
      first [ left; reflexivity
            | right; split; [assumption|]; eexists; reflexivity ]
    | (* success *)
      unfold tap_setup_run, bridge_ensured; cbn [world trace];
      eexists _, _, _, _, _, _, _;
      split; [ first [ left; split; [eassumption | reflexivity]
                     | right; eexists _, _, _, _, _;
                       split; [eassumption|]; split; [reflexivity|];
                       split; [eassumption|]; split; [eassumption|];
                       split; [eassumption | reflexivity] ] |];
      split; [eassumption|]; split; [eassumption|]; split; [eassumption|];
      split; [eassumption|]; split; reflexivity ].
Qed.

Lemma cmdCheck_facts (args : CmdArgs) (w : W) :
  let out := cmdCheck args (init_env w) in
  trace (snd out) = []
  /\ match parseNetConf (StdinData args) with
     | inr err =>
         fst out = Returned (Some err) /\ world (snd out) = w /\ diag (snd out) = []
     | inl conf =>
         let opened := os_OpenFile_append "/tmp/cni.log" (octal [6; 0; 0]) w in
         fst out = Returned None
         /\ world (snd out) = snd opened
         /\ diag (snd out)
            = match fst opened with
              | Some _ => []
              | None => [Sprintf ("cmdCheck conf %+v" +:+ String (ascii_of_nat 10) EmptyString)
                                 [show_NetConf conf]]
              end
     end.
Proof.
  cbv zeta. run_verb (cmdCheck args (init_env w)).
  all: split; [reflexivity|]; repeat split.
Qed.
End Facts.

Section MoreFacts.
Context {W : Type} {P : Provider W} {L : Lib}.


Lemma cmdDel_facts (args : CmdArgs) (w : W) :
  let out := cmdDel args (init_env w) in
  let t := trace (snd out) in
  (exists e, fst out = Returned e)
  /\ existsb is_store t = false
  /\ (List.length t <= 2)%nat
  /\ each_after_some released is_delete t
  /\ match parseNetConf (StdinData args) with
     | inr err => fst out = Returned (Some err) /\ t = []
     | inl conf => Forall (del_call args conf) t
     end.
Proof.
  cbv zeta. run_verb (cmdDel args (init_env w)).
  all: repeat match goal with
       | |- context [match ?e with Some _ => _ | None => _ end] =>
           is_var e; destruct e as [[?m | | ?m | ?m] |]; run_io
       end.
  all: cbn [fst snd trace].
  all: (split; [eexists; reflexivity|]).
  all: (split; [reflexivity|]).
  all: (split; [cbn; lia|]).
  all: (split; [apply each_after_some_b_sound; reflexivity|]).
  all: first [ split; reflexivity
             | cbn; repeat first [apply List.Forall_nil | apply List.Forall_cons];
               first [left; reflexivity | right; reflexivity] ].
Qed.


Lemma Save_facts (d : DirectAttachableNetwork) (metaFile : string) (w : W) :
  let out := Save d metaFile (init_env w) in
  let mkdir := CMkdirAll (filepath_Dir metaFile) (octal [7; 5; 5]) in
  let write := CWriteFile metaFile (json_MarshalIndent d EmptyString " ")
                          (octal [6; 4; 4]) in
  match fst (os_MkdirAll (filepath_Dir metaFile) (octal [7; 5; 5]) w) with
  | Some e => fst out = Some e /\ trace (snd out) = [Ev mkdir (Some e)]
  | None => trace (snd out) = [Ev mkdir None; Ev write (fst out)]
  end.
Proof.
  cbv zeta. unfold Save, init_env. run_io.
  - split; reflexivity.
  - reflexivity.
Qed.
End MoreFacts.

(** ** Further properties of the verbs *)


(** X2: [Save] creates the directory of the file first; when that fails
    it returns the error and does not write; otherwise it writes the
    indented JSON and returns what the write returned. *)
Theorem Save_stops_when_mkdir_fails {W : Type} {P : Provider W} {L : Lib}
    (d : DirectAttachableNetwork) (metaFile : string) (w : W) :
  let out := Save d metaFile (init_env w) in
  let mkdir := CMkdirAll (filepath_Dir metaFile) (octal [7; 5; 5]) in
  let write := CWriteFile metaFile (json_MarshalIndent d EmptyString " ")
                          (octal [6; 4; 4]) in
  match fst (os_MkdirAll (filepath_Dir metaFile) (octal [7; 5; 5]) w) with
  | Some e => fst out = Some e /\ trace (snd out) = [Ev mkdir (Some e)]
  | None => trace (snd out) = [Ev mkdir None; Ev write (fst out)]
  end.
Proof. exact (Save_facts d metaFile w). Qed.


(** X4: when [createTapInterface] returns an error it has made at least
    one call, every call before the last one went well, it deleted
    nothing of what it created, and the last call is the one that
    failed, except when the bridge was just created and [bridgeIP] does
    not parse. *)
Theorem createTapInterface_failure_stops {W : Type} {P : Provider W} {L : Lib}
    (conf : NetConf) (ifName : string) (w : W) (err : error) :
  fst (createTapInterface conf ifName (init_env w)) = inr err ->
  tap_failure_shape conf
    (trace (snd (createTapInterface conf ifName (init_env w)))).
Proof.
  intros H. pose proof (createTapInterface_facts conf ifName w) as F.
  cbv zeta in F. rewrite H in F. exact F.
Qed.

Lemma createTapInterface_failure_witness :
  fst (createTapInterface (L := libA) confA "tap0" (init_env host_bind_rejected))
  = inr (Errorf "failed to link tap device %q to master %+v: %v"
                ["tap0"; "br-test"; "operation not permitted"])
  /\ tap_failure_shape (L := libA) confA
       (trace (snd (createTapInterface (L := libA) confA "tap0"
                      (init_env host_bind_rejected)))).
Proof.
  assert (H : fst (createTapInterface (L := libA) confA "tap0"
                     (init_env host_bind_rejected))
              = inr (Errorf "failed to link tap device %q to master %+v: %v"
                            ["tap0"; "br-test"; "operation not permitted"]))
    by (vm_compute; reflexivity).
  split; [exact H|].
  exact (createTapInterface_failure_stops confA "tap0" host_bind_rejected _ H).
Defined.

(** X5: the bridge is created before its address is parsed: when the
    bridge is not found, its creation goes through and [bridgeIP] is no
    CIDR, [createTapInterface] returns the parse error having made
    exactly two calls, the lookup and the creation of the bridge; the
    bridge stays, without address, and no tap device is created. *)
Theorem createTapInterface_bad_bridgeIP {W : Type} {P : Provider W} {L : Lib}
    (conf : NetConf) (ifName : string) (w : W) :
  ParseCIDR netip_parseIPv6 (nc_BridgeIP conf) = None ->
  Ev (CLinkAdd (Bridge (attrs_named (nc_Bridge conf)))) None
    ∈ trace (snd (createTapInterface conf ifName (init_env w))) ->
  fst (createTapInterface conf ifName (init_env w))
  = inr (Errorf "failed to parse bridge IP(%+v): %v"
                [nc_BridgeIP conf; "invalid CIDR address: " +:+ nc_BridgeIP conf])
  /\ exists msg : string,
       trace (snd (createTapInterface conf ifName (init_env w)))
       = [Ev (CLinkByName (nc_Bridge conf)) (Some (LinkNotFoundError msg));
          Ev (CLinkAdd (Bridge (attrs_named (nc_Bridge conf)))) None].
Proof.
  intros Hcidr. run_verb (createTapInterface conf ifName (init_env w)).
  all: cbn [fst snd trace]; intros Hin.
  all: try congruence.
  all: try (split; [reflexivity | eexists; reflexivity]).
  all: exfalso.
  all: repeat (apply elem_of_cons in Hin as [Hin | Hin]; [try discriminate Hin|]).
  all: try (apply elem_of_nil in Hin; contradiction).
Qed.

Lemma createTapInterface_bad_bridgeIP_witness :
  ParseCIDR (netip_parseIPv6 (Lib := libA)) (nc_BridgeIP confBadIP) = None
  /\ fst (createTapInterface (L := libA) confBadIP "tap0" (init_env hostA))
     = inr (Errorf "failed to parse bridge IP(%+v): %v"
                   ["10.0.0.1"; "invalid CIDR address: 10.0.0.1"]).
Proof.
  assert (H : ParseCIDR (netip_parseIPv6 (Lib := libA)) (nc_BridgeIP confBadIP) = None)
    by (vm_compute; reflexivity).
  split; [exact H|].
  refine (proj1 (createTapInterface_bad_bridgeIP (L := libA) confBadIP "tap0" hostA H _)).
  apply (list_elem_of_lookup_2 _ 1%nat). vm_compute. reflexivity.
Defined.

(** X6: when its configuration does not parse, DEL returns the parse
    error without calling the Address Allocator or the Link Provider. *)
Theorem cmdDel_parse_failure_calls_nothing {W : Type} {P : Provider W} {L : Lib}
    (args : CmdArgs) (w : W) (err : error) :
  parseNetConf (StdinData args) = inr err ->
  fst (cmdDel args (init_env w)) = Returned (Some err)
  /\ trace (snd (cmdDel args (init_env w))) = [].
Proof.
  intros H. pose proof (cmdDel_facts args w) as F. cbv zeta in F.
  rewrite H in F. exact (proj2 (proj2 (proj2 (proj2 F)))).
Qed.

Lemma cmdDel_parse_failure_witness :
  parseNetConf (L := libA) (StdinData argsBad)
  = inr (Errorf "failed to parse network config: %v" ["unexpected end of JSON input"])
  /\ trace (snd (cmdDel (L := libA) argsBad (init_env hostA))) = [].
Proof.
  assert (H : parseNetConf (L := libA) (StdinData argsBad)
              = inr (Errorf "failed to parse network config: %v"
                            ["unexpected end of JSON input"]))
    by (vm_compute; reflexivity).
  split; [exact H|].
  exact (proj2 (cmdDel_parse_failure_calls_nothing (L := libA) argsBad hostA _ H)).
Defined.

(** X7: DEL makes at most two calls, the release with the IPAM type and
    the raw configuration, and the deletion of the fixed link [tap0],
    whatever interface name it was invoked with; it deletes only after
    the release went through, never touches the record store, and never
    panics. *)
Theorem cmdDel_only_releases_and_deletes {W : Type} {P : Provider W} {L : Lib}
    (args : CmdArgs) (w : W) (conf : NetConf) :
  parseNetConf (StdinData args) = inl conf ->
  let out := cmdDel args (init_env w) in
  Forall (del_call args conf) (trace (snd out))
  /\ (List.length (trace (snd out)) <= 2)%nat
  /\ each_after_some released is_delete (trace (snd out))
  /\ existsb is_store (trace (snd out)) = false
  /\ exists e, fst out = Returned e.
Proof.
  intros H. cbv zeta. pose proof (cmdDel_facts args w) as F. cbv zeta in F.
  rewrite H in F. destruct F as (F1 & F2 & F3 & F4 & F5). repeat split; assumption.
Qed.

Lemma cmdDel_only_releases_and_deletes_witness :
  parseNetConf (L := libA) (StdinData argsA) = inl confA
  /\ (List.length (trace (snd (cmdDel (L := libA) argsA (init_env hostA)))) <= 2)%nat.
Proof.
  assert (H : parseNetConf (L := libA) (StdinData argsA) = inl confA)
    by (vm_compute; reflexivity).
  split; [exact H|].
  exact (proj1 (proj2 (cmdDel_only_releases_and_deletes (L := libA) argsA hostA confA H))).
Defined.


(** X9: the record written after ADD printed a result is the indented
    JSON of the record [FromResult] builds from that very result, for
    network type tap, device [tap0] and the interface name of the
    invocation: it carries the interfaces, addresses, routes, DNS and
    annotations that were printed. *)
Theorem cmdAdd_record_is_the_printed_result {W : Type} {P : Provider W} {L : Lib}
    (args : CmdArgs) (w : W) (conf : NetConf) :
  parseNetConf (StdinData args) = inl conf ->
  let t := trace (snd (cmdAdd args (init_env w))) in
  Forall (fun p => Forall (record_body args (fst p)) (written_data t))
         (printed_results t).
Proof.
  intros H. cbv zeta. pose proof (cmdAdd_facts args w) as F. cbv zeta in F.
  rewrite H in F. exact (proj1 (proj2 (proj2 F))).
Qed.

Lemma cmdAdd_record_is_the_printed_result_witness :
  parseNetConf (L := libA) (StdinData argsA) = inl confA
  /\ Forall (fun p => Forall (record_body (L := libA) argsA (fst p))
                             (written_data (trace (snd (cmdAdd (L := libA) argsA
                                                           (init_env hostA))))))
            (printed_results (trace (snd (cmdAdd (L := libA) argsA (init_env hostA))))).
Proof.
  assert (H : parseNetConf (L := libA) (StdinData argsA) = inl confA)
    by (vm_compute; reflexivity).
  split; [exact H|].
  exact (cmdAdd_record_is_the_printed_result (L := libA) argsA hostA confA H).
Defined.

(** X10: ADD asks the delegate to allocate at most once, and every call
    to the delegate, allocation or release, carries the IPAM type of the
    configuration and the raw bytes of the configuration as received. *)
Theorem cmdAdd_delegate_arguments {W : Type} {P : Provider W} {L : Lib}
    (args : CmdArgs) (w : W) (conf : NetConf) :
  parseNetConf (StdinData args) = inl conf ->
  let t := trace (snd (cmdAdd args (init_env w))) in
  Forall (delegate_args args conf) t
  /\ (List.length (List.filter is_allocate t) <= 1)%nat.
Proof.
  intros H. cbv zeta. pose proof (cmdAdd_facts args w) as F. cbv zeta in F.
  rewrite H in F. destruct F as (_ & _ & _ & F4 & F5 & _). split; assumption.
Qed.

Lemma cmdAdd_delegate_arguments_witness :
  parseNetConf (L := libA) (StdinData argsA) = inl confA
  /\ Forall (delegate_args argsA confA)
            (trace (snd (cmdAdd (L := libA) argsA (init_env hostA)))).
Proof.
  assert (H : parseNetConf (L := libA) (StdinData argsA) = inl confA)
    by (vm_compute; reflexivity).
  split; [exact H|].
  exact (proj1 (cmdAdd_delegate_arguments (L := libA) argsA hostA confA H)).
Defined.



(** X12: once ADD got as far as printing the result, it returns exactly
    what [types.PrintResult] returned, an error included, and performs
    no rollback: no link is deleted and no address released. *)
Theorem cmdAdd_returns_what_print_returns {W : Type} {P : Provider W} {L : Lib}
    (args : CmdArgs) (w : W) (r : Result) (v : string) (answer : option error) :
  Ev (CPrintResult r v) answer ∈ trace (snd (cmdAdd args (init_env w))) ->
  fst (cmdAdd args (init_env w)) = Returned answer
  /\ deleted_names (trace (snd (cmdAdd args (init_env w)))) = []
  /\ filter (fun x => is_release x = true) (trace (snd (cmdAdd args (init_env w)))) = [].
Proof.
  intros Hin. pose proof (cmdAdd_facts args w) as F. cbv zeta in F.
  destruct (parseNetConf (StdinData args)) as [conf | err].
  - destruct F as (_ & _ & _ & _ & _ & _ & F7 & _).
    rewrite List.Forall_forall in F7.
    apply list_elem_of_In in Hin. exact (F7 _ Hin).
  - destruct F as [_ Ht]. rewrite Ht in Hin. apply elem_of_nil in Hin. contradiction.
Qed.

Lemma cmdAdd_returns_what_print_returns_witness :
  fst (cmdAdd (L := libA) argsA (init_env hostA)) = Returned None
  /\ deleted_names (trace (snd (cmdAdd (L := libA) argsA (init_env hostA)))) = [].
Proof.
  assert (Hin : exists r, Ev (CPrintResult r "1.0.0") None
                          ∈ trace (snd (cmdAdd (L := libA) argsA (init_env hostA)))).
  { eexists. apply (list_elem_of_lookup_2 _ 8%nat). vm_compute. reflexivity. }
  destruct Hin as [r Hin].
  destruct (cmdAdd_returns_what_print_returns (L := libA) argsA hostA r "1.0.0" None Hin)
    as (H1 & H2 & _).
  split; [exact H1 | exact H2].
Defined.

(** X13: an ADD that returns success created the tap device, brought it
    up, got an allocation and printed the result, and neither deleted a
    link nor released an address. *)
Theorem cmdAdd_success_went_all_the_way {W : Type} {P : Provider W} {L : Lib}
    (args : CmdArgs) (w : W) :
  fst (cmdAdd args (init_env w)) = Returned None ->
  let t := trace (snd (cmdAdd args (init_env w))) in
  existsb tap_created t = true /\ existsb setup_ok t = true
  /\ existsb allocated t = true /\ existsb printed_ok t = true
  /\ deleted_names t = [] /\ List.filter is_release t = [].
Proof.
  intros Hret. cbv zeta. pose proof (cmdAdd_facts args w) as F. cbv zeta in F.
  destruct (parseNetConf (StdinData args)) as [conf | err].
  - destruct F as (_ & _ & _ & _ & _ & _ & _ & F8 & _). exact (F8 Hret).
  - destruct F as [Hout _]. rewrite Hout in Hret. discriminate Hret.
Qed.

Lemma cmdAdd_success_went_all_the_way_witness :
  fst (cmdAdd (L := libA) argsA (init_env hostA)) = Returned None
  /\ existsb printed_ok (trace (snd (cmdAdd (L := libA) argsA (init_env hostA)))) = true.
Proof.
  assert (H : fst (cmdAdd (L := libA) argsA (init_env hostA)) = Returned None)
    by (vm_compute; reflexivity).
  split; [exact H|].
  exact (proj1 (proj2 (proj2 (proj2
           (cmdAdd_success_went_all_the_way (L := libA) argsA hostA H))))).
Defined.

(** X14: in every ADD the delegate is only asked to allocate after the
    tap link was brought up, the record store is only touched after the
    tap link was brought up, and the result is only printed after an
    allocation went through. *)
Theorem cmdAdd_order_of_steps {W : Type} {P : Provider W} {L : Lib}
    (args : CmdArgs) (w : W) :
  let t := trace (snd (cmdAdd args (init_env w))) in
  each_after_some setup_ok is_allocate t
  /\ each_after_some setup_ok is_store t
  /\ each_after_some allocated is_print t.
Proof.
  cbv zeta. pose proof (cmdAdd_facts args w) as F. cbv zeta in F.
  destruct (parseNetConf (StdinData args)) as [conf | err].
  - destruct F as (_ & _ & _ & _ & _ & _ & _ & _ & F9 & F10 & F11 & _).
    repeat split; assumption.
  - destruct F as [_ ->].
    repeat split; intros j b Hj; rewrite lookup_nil in Hj; discriminate Hj.
Qed.


(** X16: when the allocation fails, whatever ADD writes as record is the
    record of the empty result: no interface, no address, no route. *)
Theorem cmdAdd_failed_allocation_writes_empty_record
    {W : Type} {P : Provider W} {L : Lib} (args : CmdArgs) (w : W) :
  existsb alloc_failed (trace (snd (cmdAdd args (init_env w)))) = true ->
  Forall (record_body args empty_Result)
         (written_data (trace (snd (cmdAdd args (init_env w))))).
Proof.
  intros Hf. pose proof (cmdAdd_facts args w) as F. cbv zeta in F.
  destruct (parseNetConf (StdinData args)) as [conf | err].
  - destruct F as (_ & _ & _ & _ & _ & _ & _ & _ & _ & _ & _ & _ & F13 & _).
    exact (F13 Hf).
  - destruct F as [_ Ht]. rewrite Ht in Hf. discriminate Hf.
Qed.

Lemma cmdAdd_failed_allocation_writes_empty_record_witness :
  existsb alloc_failed
    (trace (snd (cmdAdd (L := libA) argsA (init_env host_allocation_fails)))) = true
  /\ Forall (record_body (L := libA) argsA empty_Result)
       (written_data
          (trace (snd (cmdAdd (L := libA) argsA (init_env host_allocation_fails))))).
Proof.
  assert (H : existsb alloc_failed
                (trace (snd (cmdAdd (L := libA) argsA (init_env host_allocation_fails))))
              = true) by (vm_compute; reflexivity).
  split; [exact H|].
  exact (cmdAdd_failed_allocation_writes_empty_record (L := libA) argsA
           host_allocation_fails H).
Defined.

Lemma rebind_IPs_complete (ips : list (option IPConfig)) :
  Forall is_Some ips ->
  rebind_IPs ips
  = (map (option_map (fun ipc => mkIPConfig (Some 0) (ipc_Address ipc) (ipc_Gateway ipc)))
         ips,
     true).
Proof.
  induction ips as [|[ipc|] rest IH]; intros H.
  - reflexivity.
  - cbn. rewrite IH; [reflexivity|]. inversion H; assumption.
  - inversion H as [|? ? Hnone]. destruct Hnone; discriminate.
Qed.

Lemma rebind_IPs_stops (ips : list (option IPConfig)) :
  snd (rebind_IPs ips) = false <-> None ∈ ips.
Proof.
  induction ips as [|[ipc|] rest IH]; cbn.
  - split; [discriminate | intros H; apply elem_of_nil in H; contradiction].
  - destruct (rebind_IPs rest) as [rest' c]. cbn in *. rewrite IH.
    rewrite elem_of_cons. split; [tauto | intros [H|H]; [discriminate | exact H]].
  - split; [intros _; apply elem_of_cons; left; reflexivity | reflexivity].
Qed.

Ltac use_known :=
  match goal with
  | H : ?l = (_, _) |- context [?l] => rewrite H
  | H : ?l = inl _ |- context [?l] => rewrite H
  end.

Ltac run_io_known :=
  repeat (first [ rewrite Log_run | progress unfold_io | progress simpl
                | use_known | split_answer ]).

Section Chain.
Context {W : Type} {P : Provider W} {L : Lib}.

Lemma cmdAdd_after_allocation (args : CmdArgs) (w : W) (conf : NetConf)
    (iface : Interface) (env1 : Env W) (reply : TypesResult) (w2 : W) :
  parseNetConf (StdinData args) = inl conf ->
  ipam_Type (nc_IPAM conf) <> EmptyString ->
  createTapInterface conf hostTapName (snd (add_entry args conf (init_env w)))
  = (inl iface, env1) ->
  ipam_ExecAdd (ipam_Type (nc_IPAM conf)) (StdinData args) (world env1)
  = (inl reply, w2) ->
  let out := cmdAdd args (init_env w) in
  match NewResultFromResult reply with
  | (None, _) => fst out = Panicked nil_deref
  | (Some res, Some e) => fst out = Returned (Some e)
  | (Some res, None) =>
      if Nat.eqb (List.length (res_IPs res)) 0 then
        fst out = Returned (Some (errors_New "IPAM plugin returned missing IP config"))
      else
        match rebind_IPs (res_IPs res) with
        | (_, false) => fst out = Panicked nil_deref
        | (ips, true) =>
            let printed :=
              mkResult (res_CNIVersion res) [Some iface] ips (res_Routes res)
                       (res_DNS res)
                       (Some (<["metafile" := "/tmp/dans/tap/tap0.json"]>
                                (default ∅ (res_Annotations res)))) in
            let answer :=
              fst (types_PrintResult printed (nc_CNIVersion conf) (log_world w2)) in
            fst out = Returned answer
            /\ exists tail : list event,
                 trace (snd out)
                 = trace env1
                   ++ [Ev (CExecAdd (ipam_Type (nc_IPAM conf)) (StdinData args)) None;
                       Ev (CPrintResult printed (nc_CNIVersion conf)) answer]
                   ++ tail
                 /\ forallb is_store tail = true
        end
  end.
Proof.
  intros Hparse Htype Hcreate Hexec. cbv zeta.
  unfold add_entry, init_env, io_bind in Hcreate. rewrite !Log_run in Hcreate.
  cbn [snd world trace diag] in Hcreate.
  pattern (cmdAdd args (init_env w)).
  match goal with |- ?Q _ => remember Q as Post eqn:HPost end.
  unfold init_env, cmdAdd.
  run_io_known.
  all: subst Post; cbv beta; cbn [fst snd trace].
  all: try contradiction.
  all: repeat match goal with
       | H : NewResultFromResult _ = _ |- _ => rewrite H
       | H : Nat.eqb _ _ = _ |- _ => rewrite H
       | H : rebind_IPs _ = _ |- _ => rewrite H
       end.
  all: try reflexivity.
  all: match goal with
       | H : types_PrintResult _ _ _ = (?e, _)
         |- context [fst (types_PrintResult ?r ?v ?s)] =>
           let Hx := fresh in
           assert (Hx : fst (types_PrintResult r v s) = e) by exact (f_equal fst H);
           rewrite Hx
       end.
  all: split; [reflexivity|].
  all: eexists; split; [rewrite <- !app_assoc; reflexivity | reflexivity].
Qed.
End Chain.

(** X1: CHECK verifies nothing.  It calls neither the Link Provider nor
    the Address Allocator nor the record store.  When the configuration
    does not parse it returns the parse error and touches nothing.
    When it parses, CHECK opens the diagnostic log [/tmp/cni.log] for
    appending once, with mode 0600, writes one line with the
    configuration when the log could be opened, and returns success
    either way; the state it leaves is the one that opening left.  On
    the reference host, where opening the log changes nothing, CHECK
    leaves the host as it was. *)
Theorem cmdCheck_only_logs {W : Type} {P : Provider W} {L : Lib}
    (args : CmdArgs) (w : W) :
  let out := cmdCheck args (init_env w) in
  trace (snd out) = []
  /\ match parseNetConf (StdinData args) with
     | inr err =>
         fst out = Returned (Some err) /\ world (snd out) = w /\ diag (snd out) = []
     | inl conf =>
         let opened := os_OpenFile_append "/tmp/cni.log" (octal [6; 0; 0]) w in
         fst out = Returned None
         /\ world (snd out) = snd opened
         /\ diag (snd out)
            = match fst opened with
              | Some _ => []
              | None => [Sprintf ("cmdCheck conf %+v" +:+ String (ascii_of_nat 10) EmptyString)
                                 [show_NetConf conf]]
              end
     end
  /\ forall h : Host, world (snd (run_on (cmdCheck args) h)) = h.
Proof.
  cbv zeta. destruct (cmdCheck_facts args w) as [Ht Hrest].
  split; [exact Ht|]. split; [exact Hrest|].
  intros h. unfold run_on.
  destruct (cmdCheck_facts args h) as [_ Hh]. cbv zeta in Hh.
  destruct (parseNetConf (StdinData args)) as [conf | err].
  - destruct Hh as (_ & Hw & _). rewrite Hw. apply host_log_world.
  - destruct Hh as (_ & Hw & _). exact Hw.
Qed.

(** X3: when [createTapInterface] returns an interface, the Link
    Provider answered as follows, each call on the state the one before
    it left.  The lookup of the bridge answered with the bridge, or it
    answered that there is none, and then the creation of a bridge
    under the configured name and the assignment of the network
    [net.ParseCIDR] gives for [bridgeIP] both went through.  After that
    the creation of the tap device, its binding to that bridge, its
    lookup by name and, after one log line, the bringing up of the link
    the lookup returned all went through.  These are all the calls
    made, in this order.  The interface returned carries the name asked
    for, the hardware address of the link the lookup returned, and no
    sandbox; the state left is the one the last call left. *)
Theorem createTapInterface_success_calls {W : Type} {P : Provider W} {L : Lib}
    (conf : NetConf) (ifName : string) (w : W) (iface : Interface) :
  fst (createTapInterface conf ifName (init_env w)) = inl iface ->
  tap_setup_run conf ifName w iface (snd (createTapInterface conf ifName (init_env w))).
Proof.
  intros H. pose proof (createTapInterface_facts conf ifName w) as F.
  cbv zeta in F. rewrite H in F. exact F.
Qed.

Lemma createTapInterface_success_witness :
  fst (createTapInterface (L := libA) confA "tap0" (init_env hostA))
  = inl (mkInterface "tap0" "02:42:ac:11:00:02" EmptyString)
  /\ List.length (trace (snd (createTapInterface (L := libA) confA "tap0"
                                (init_env hostA)))) = 7%nat
  /\ tap_setup_run (L := libA) confA "tap0" hostA
       (mkInterface "tap0" "02:42:ac:11:00:02" EmptyString)
       (snd (createTapInterface (L := libA) confA "tap0" (init_env hostA))).
Proof.
  assert (H : fst (createTapInterface (L := libA) confA "tap0" (init_env hostA))
              = inl (mkInterface "tap0" "02:42:ac:11:00:02" EmptyString))
    by (vm_compute; reflexivity).
  split; [exact H|]. split; [vm_compute; reflexivity|].
  exact (createTapInterface_success_calls (L := libA) confA "tap0" hostA _ H).
Defined.

(** X8: what ADD prints is built from what the collaborators answered.
    When the configuration parses and names an IPAM type, the setup of
    the tap device, run after the three first log lines, returns the
    interface [iface], the delegate then answers the allocation with
    [reply], and the conversion of [reply] gives a result with at least
    one address and no nil entry, then ADD prints, once and in the
    version of the configuration, that result with [iface] as its only
    interface, every address bound to interface index 0 with address and
    gateway as the delegate gave them, routes and DNS as the delegate
    gave them, and the annotations of the delegate plus [metafile];
    ADD returns what the printing returns, and after the printing it
    only writes the record. *)
Theorem cmdAdd_prints_rebound_result {W : Type} {P : Provider W} {L : Lib}
    (args : CmdArgs) (w : W) (conf : NetConf) (iface : Interface) (env1 : Env W)
    (reply : TypesResult) (w2 : W) (res : Result) :
  parseNetConf (StdinData args) = inl conf ->
  ipam_Type (nc_IPAM conf) <> EmptyString ->
  createTapInterface conf hostTapName (snd (add_entry args conf (init_env w)))
  = (inl iface, env1) ->
  ipam_ExecAdd (ipam_Type (nc_IPAM conf)) (StdinData args) (world env1)
  = (inl reply, w2) ->
  NewResultFromResult reply = (Some res, None) ->
  res_IPs res <> [] ->
  None ∉ res_IPs res ->
  let out := cmdAdd args (init_env w) in
  let printed :=
    mkResult (res_CNIVersion res) [Some iface]
             (map (option_map (fun ipc => mkIPConfig (Some 0) (ipc_Address ipc)
                                                     (ipc_Gateway ipc)))
                  (res_IPs res))
             (res_Routes res) (res_DNS res)
             (Some (<["metafile" := "/tmp/dans/tap/tap0.json"]>
                      (default ∅ (res_Annotations res)))) in
  let answer := fst (types_PrintResult printed (nc_CNIVersion conf) (log_world w2)) in
  fst out = Returned answer
  /\ exists tail : list event,
       trace (snd out)
       = trace env1
         ++ [Ev (CExecAdd (ipam_Type (nc_IPAM conf)) (StdinData args)) None;
             Ev (CPrintResult printed (nc_CNIVersion conf)) answer]
         ++ tail
       /\ forallb is_store tail = true.
Proof.
  intros Hparse Htype Hcreate Hexec Hconv Hne Hnil. cbv zeta.
  pose proof (cmdAdd_after_allocation args w conf iface env1 reply w2
                Hparse Htype Hcreate Hexec) as F.
  cbv zeta in F. rewrite Hconv in F.
  destruct (Nat.eqb (List.length (res_IPs res)) 0) eqn:Hlen.
  - destruct (res_IPs res); [contradiction | discriminate Hlen].
  - rewrite rebind_IPs_complete in F; [exact F|].
    apply Forall_forall. intros [x|] Hin; [eauto | contradiction].
Qed.

Lemma cmdAdd_prints_rebound_result_witness :
  let made := createTapInterface (L := libA) confA hostTapName
                (snd (add_entry (L := libA) argsA confA (init_env hostA))) in
  let asked := ipam_ExecAdd "static" stdinA (world (snd made)) in
  parseNetConf (L := libA) (StdinData argsA) = inl confA
  /\ made = (inl (mkInterface "tap0" "02:42:ac:11:00:02" EmptyString), snd made)
  /\ asked = (inl one_address, snd asked)
  /\ NewResultFromResult (Lib := libA) one_address = (Some (tr_Result one_address), None)
  /\ fst (cmdAdd (L := libA) argsA (init_env hostA)) = Returned None
  /\ exists tail : list event,
       trace (snd (cmdAdd (L := libA) argsA (init_env hostA)))
       = trace (snd made)
         ++ [Ev (CExecAdd "static" stdinA) None;
             Ev (CPrintResult
                   (mkResult "1.0.0"
                      [Some (mkInterface "tap0" "02:42:ac:11:00:02" EmptyString)]
                      [Some (mkIPConfig (Some 0)
                                        (mkIPNet [10; 0; 0; 5] [255; 255; 255; 0])
                                        [10; 0; 0; 1])]
                      [] empty_DNS
                      (Some {["metafile" := "/tmp/dans/tap/tap0.json"]}))
                   "1.0.0") None]
         ++ tail.
Proof.
  cbv zeta.
  assert (Hparse : parseNetConf (L := libA) (StdinData argsA) = inl confA)
    by (vm_compute; reflexivity).
  assert (Htype : ipam_Type (nc_IPAM confA) <> EmptyString) by discriminate.
  assert (Hmade : createTapInterface (L := libA) confA hostTapName
                    (snd (add_entry (L := libA) argsA confA (init_env hostA)))
                  = (inl (mkInterface "tap0" "02:42:ac:11:00:02" EmptyString),
                     snd (createTapInterface (L := libA) confA hostTapName
                            (snd (add_entry (L := libA) argsA confA (init_env hostA))))))
    by (vm_compute; reflexivity).
  assert (Hasked : ipam_ExecAdd (ipam_Type (nc_IPAM confA)) (StdinData argsA)
                     (world (snd (createTapInterface (L := libA) confA hostTapName
                            (snd (add_entry (L := libA) argsA confA (init_env hostA))))))
                   = (inl one_address,
                      snd (ipam_ExecAdd "static" stdinA
                             (world (snd (createTapInterface (L := libA) confA hostTapName
                                (snd (add_entry (L := libA) argsA confA
                                        (init_env hostA)))))))))
    by (vm_compute; reflexivity).
  assert (Hconv : NewResultFromResult (Lib := libA) one_address
                  = (Some (tr_Result one_address), None))
    by (vm_compute; reflexivity).
  assert (Hne : res_IPs (tr_Result one_address) <> []) by discriminate.
  assert (Hnil : None ∉ res_IPs (tr_Result one_address)).
  { intros Hin. apply elem_of_cons in Hin as [Hin | Hin]; [discriminate Hin|].
    apply elem_of_nil in Hin. contradiction. }
  split; [exact Hparse|]. split; [exact Hmade|]. split; [exact Hasked|].
  split; [exact Hconv|].
  destruct (cmdAdd_prints_rebound_result (L := libA) argsA hostA confA _ _ _ _ _
              Hparse Htype Hmade Hasked Hconv Hne Hnil) as (Hret & tail & Ht & _).
  split.
  - rewrite Hret. vm_compute. reflexivity.
  - exists tail. rewrite Ht. vm_compute. reflexivity.
Defined.

(** X15: ADD panics on a nil pointer exactly in these cases.  When the
    configuration parses and names an IPAM type, the setup of the tap
    device went through and the delegate answered the allocation with
    [reply], ADD panics if and only if the conversion of [reply] gives
    no result (with or without an error), or gives a result, without
    error, whose list of addresses is not empty and holds a nil entry.
    The panic is the nil pointer dereference, and ADD has printed
    nothing by then.  In every ADD a panic comes only after the
    allocation went through. *)
Theorem cmdAdd_panics_on_nil_pointer {W : Type} {P : Provider W} {L : Lib}
    (args : CmdArgs) (w : W) (conf : NetConf) (iface : Interface) (env1 : Env W)
    (reply : TypesResult) (w2 : W) :
  parseNetConf (StdinData args) = inl conf ->
  ipam_Type (nc_IPAM conf) <> EmptyString ->
  createTapInterface conf hostTapName (snd (add_entry args conf (init_env w)))
  = (inl iface, env1) ->
  ipam_ExecAdd (ipam_Type (nc_IPAM conf)) (StdinData args) (world env1)
  = (inl reply, w2) ->
  let out := cmdAdd args (init_env w) in
  ((exists msg, fst out = Panicked msg)
   <-> match NewResultFromResult reply with
       | (None, _) => True
       | (Some res, None) => res_IPs res <> [] /\ None ∈ res_IPs res
       | (Some _, Some _) => False
       end)
  /\ ((exists msg, fst out = Panicked msg) ->
      fst out = Panicked nil_deref
      /\ existsb allocated (trace (snd out)) = true
      /\ existsb is_print (trace (snd out)) = false).
Proof.
  intros Hparse Htype Hcreate Hexec. cbv zeta.
  pose proof (cmdAdd_after_allocation args w conf iface env1 reply w2
                Hparse Htype Hcreate Hexec) as F.
  cbv zeta in F.
  pose proof (cmdAdd_facts args w) as G. cbv zeta in G. rewrite Hparse in G.
  destruct G as (_ & _ & _ & _ & _ & _ & _ & _ & _ & _ & _ & G12 & _).
  assert (Hiff : (exists msg, fst (cmdAdd args (init_env w)) = Panicked msg)
                 <-> match NewResultFromResult reply with
                     | (None, _) => True
                     | (Some res, None) => res_IPs res <> [] /\ None ∈ res_IPs res
                     | (Some _, Some _) => False
                     end).
  { destruct (NewResultFromResult reply) as [[res|] [e|]].
    - rewrite F. split; [intros [msg Hm]; discriminate Hm | contradiction].
    - destruct (Nat.eqb (List.length (res_IPs res)) 0) eqn:Hlen.
      + rewrite F. split; [intros [msg Hm]; discriminate Hm |].
        intros [Hne _]. destruct (res_IPs res); [contradiction | discriminate Hlen].
      + pose proof (rebind_IPs_stops (res_IPs res)) as Hstop.
        destruct (rebind_IPs (res_IPs res)) as [ips [|]]; cbn in Hstop.
        * destruct F as [F _]. rewrite F.
          split; [intros [msg Hm]; discriminate Hm |].
          intros [_ Hin]. apply Hstop in Hin. discriminate Hin.
        * rewrite F. split; [|intros _; eexists; reflexivity].
          intros _. split; [apply nonempty_of_length; exact Hlen |].
          apply Hstop. reflexivity.
    - rewrite F. split; [intros _; exact I | intros _; eexists; reflexivity].
    - rewrite F. split; [intros _; exact I | intros _; eexists; reflexivity]. }
  split; [exact Hiff|].
  intros Hp. split; [|exact (G12 Hp)].
  apply Hiff in Hp.
  destruct (NewResultFromResult reply) as [[res|] [e|]]; try contradiction;
    try exact F.
  destruct Hp as [Hne Hin].
  destruct (Nat.eqb (List.length (res_IPs res)) 0) eqn:Hlen.
  - destruct (res_IPs res); [contradiction | discriminate Hlen].
  - apply rebind_IPs_stops in Hin.
    destruct (rebind_IPs (res_IPs res)) as [ips [|]]; [discriminate Hin | exact F].
Qed.

Lemma cmdAdd_panics_on_nil_pointer_witness :
  let h := bare_host nil_address no_faults in
  let made := createTapInterface (L := libA) confA hostTapName
                (snd (add_entry (L := libA) argsA confA (init_env h))) in
  let asked := ipam_ExecAdd "static" stdinA (world (snd made)) in
  parseNetConf (L := libA) (StdinData argsA) = inl confA
  /\ made = (inl (mkInterface "tap0" "02:42:ac:11:00:02" EmptyString), snd made)
  /\ asked = (inl nil_address, snd asked)
  /\ NewResultFromResult (Lib := libA) nil_address = (Some (tr_Result nil_address), None)
  /\ None ∈ res_IPs (tr_Result nil_address)
  /\ fst (cmdAdd (L := libA) argsA (init_env h)) = Panicked nil_deref.
Proof.
  cbv zeta.
  assert (Hparse : parseNetConf (L := libA) (StdinData argsA) = inl confA)
    by (vm_compute; reflexivity).
  assert (Htype : ipam_Type (nc_IPAM confA) <> EmptyString) by discriminate.
  assert (Hmade : createTapInterface (L := libA) confA hostTapName
                    (snd (add_entry (L := libA) argsA confA
                            (init_env (bare_host nil_address no_faults))))
                  = (inl (mkInterface "tap0" "02:42:ac:11:00:02" EmptyString),
                     snd (createTapInterface (L := libA) confA hostTapName
                            (snd (add_entry (L := libA) argsA confA
                                    (init_env (bare_host nil_address no_faults)))))))
    by (vm_compute; reflexivity).
  assert (Hasked : ipam_ExecAdd (ipam_Type (nc_IPAM confA)) (StdinData argsA)
                     (world (snd (createTapInterface (L := libA) confA hostTapName
                            (snd (add_entry (L := libA) argsA confA
                                    (init_env (bare_host nil_address no_faults)))))))
                   = (inl nil_address,
                      snd (ipam_ExecAdd "static" stdinA
                             (world (snd (createTapInterface (L := libA) confA hostTapName
                                (snd (add_entry (L := libA) argsA confA
                                        (init_env (bare_host nil_address no_faults))))))))))
    by (vm_compute; reflexivity).
  assert (Hconv : NewResultFromResult (Lib := libA) nil_address
                  = (Some (tr_Result nil_address), None))
    by (vm_compute; reflexivity).
  assert (Hin : None ∈ res_IPs (tr_Result nil_address)).
  { apply (list_elem_of_lookup_2 _ 1%nat). reflexivity. }
  split; [exact Hparse|]. split; [exact Hmade|]. split; [exact Hasked|].
  split; [exact Hconv|]. split; [exact Hin|].
  destruct (cmdAdd_panics_on_nil_pointer (L := libA) argsA
              (bare_host nil_address no_faults) confA _ _ _ _
              Hparse Htype Hmade Hasked) as [Hiff Hmsg].
  apply Hmsg. apply Hiff. rewrite Hconv. split; [discriminate | exact Hin].
Defined.
